(** * PyazDB: a shallow embedding of the key-value store, its Raft FSM,
    the HTTP request router, the discovery registry and the metrics
    wrapper, with the properties the specification states about them. *)

From stdpp Require Import base gmap strings list.
From Stdlib Require Import ZArith Ascii String.

Open Scope string_scope.
Open Scope Z_scope.
Set Warnings "-register-all".

(* ================================================================== *)
(** ** Errors returned through the [error] interface *)

(** The error values that reach the router: the futures of the Raft
    library resolve to one of its sentinel errors, and the JSON decoder
    reports syntax or type errors. *)
Inductive error :=
| ErrNotLeader
| ErrLeadershipLost
| ErrEnqueueTimeout
| ErrRaftShutdown
| ErrJSONSyntax
| ErrJSONType
| ErrOther (msg : string).

(* ================================================================== *)
(** ** C1: MemStore (src/unnamed/part_000) *)

(** [MemStore.data] is a Go [map[string]string]; the RWMutex only
    serialises the calls, which the embedding performs one at a time. *)
Record MemStore := { data : gmap string string }.

Definition NewMemStore : MemStore := {| data := ∅ |}.

(** [val, ok := s.data[key]]: a missing key reads as the zero value "". *)
Definition MemStore_Get (s : MemStore) (key : string) : string * bool :=
  match data s !! key with
  | Some v => (v, true)
  | None => ("", false)
  end.

(** [s.data[key] = value; return nil] *)
Definition MemStore_Set (s : MemStore) (key value : string)
  : MemStore * option error :=
  ({| data := <[key := value]> (data s) |}, None).

(** [delete(s.data, key); return nil] *)
Definition MemStore_Delete (s : MemStore) (key : string)
  : MemStore * option error :=
  ({| data := delete key (data s) |}, None).

(* ================================================================== *)
(** ** JSON documents as [encoding/json] sees them *)

(** The byte-level JSON syntax is abstracted: a payload is either a
    parsed document or a syntax error ([None]). *)
Inductive jval :=
| JNull
| JBool (b : bool)
| JNum (z : Z)
| JStr (s : string)
| JArr (l : list jval)
| JObj (fields : list (string * jval)).

(** [encoding/json] matches an object key to a struct field by its exact
    name or else by [foldName] (encoding/json/fold.go): ASCII letters are
    upper-cased and every other rune [r] becomes
    [unicode.ToUpper(unicode.ToLower(r))], written in UTF-8. The only
    non-ASCII runes whose fold is ASCII are U+0130 and U+0131 (to "I"),
    U+017F (to "S") and U+212A KELVIN SIGN (to "K"); every other
    non-ASCII rune folds to a non-ASCII rune, whose bytes the embedding
    keeps. Every field name matched in this program is ASCII, so a member
    name matches a field here exactly when it does in Go. Keys are valid
    UTF-8 once unquoted. *)
Definition upper (c : ascii) : ascii :=
  let n := nat_of_ascii c in
  if (97 <=? n)%nat && (n <=? 122)%nat then ascii_of_nat (n - 32) else c.

Fixpoint foldName (s : string) : string :=
  match s with
  | EmptyString => EmptyString
  | String c r =>
      match r with
      | EmptyString => String (upper c) EmptyString
      | String d r1 =>
          if Ascii.eqb c "196"%char && (Ascii.eqb d "176"%char || Ascii.eqb d "177"%char)
          then String "I" (foldName r1)
          else if Ascii.eqb c "197"%char && Ascii.eqb d "191"%char
          then String "S" (foldName r1)
          else match r1 with
               | String e r2 =>
                   if Ascii.eqb c "226"%char && Ascii.eqb d "132"%char && Ascii.eqb e "170"%char
                   then String "K" (foldName r2)
                   else String (upper c) (foldName r)
               | EmptyString => String (upper c) (foldName r)
               end
      end
  end.

Definition fold_eq (a b : string) : bool := String.eqb (foldName a) (foldName b).

(** Decoding of one [string] field of a struct from the members of an
    object, in order (the last matching member wins): a JSON string is
    stored, [null] leaves the field alone, any other value is a type
    error that is remembered while decoding goes on. *)
Definition decode_string_field (name : string) (fields : list (string * jval))
    (cur : string) : string * bool :=
  fold_left (fun (acc : string * bool) (kv : string * jval) =>
    let '(v0, bad) := acc in
    let '(n, v) := kv in
    if fold_eq n name then
      match v with
      | JStr s => (s, bad)
      | JNull => (v0, bad)
      | _ => (v0, true)
      end
    else acc) fields (cur, false).

(* ================================================================== *)
(** ** C2: RaftStore and the FSM (src/internal/store/raftstore.go) *)

(** [type RaftCommand struct { Op, Key, Value string }]: no struct tags,
    so the JSON member names are the Go field names. *)
Record RaftCommand := { Op : string; Key : string; Value : string }.

Definition zero_command : RaftCommand := {| Op := ""; Key := ""; Value := "" |}.

(** [json.Marshal(cmd)]: every exported field is written, in
    declaration order. *)
Definition marshal_RaftCommand (c : RaftCommand) : jval :=
  JObj [("Op", JStr (Op c)); ("Key", JStr (Key c)); ("Value", JStr (Value c))].

(** [json.Unmarshal(data, &cmd)] into a zero [RaftCommand]. *)
Definition unmarshal_RaftCommand (d : option jval) : RaftCommand + error :=
  match d with
  | None => inr ErrJSONSyntax
  | Some JNull => inl zero_command
  | Some (JObj fs) =>
      let '(op, b1) := decode_string_field "Op" fs "" in
      let '(k, b2) := decode_string_field "Key" fs "" in
      let '(v, b3) := decode_string_field "Value" fs "" in
      if b1 || b2 || b3 then inr ErrJSONType
      else inl {| Op := op; Key := k; Value := v |}
  | Some _ => inr ErrJSONType
  end.

(** [RaftStore.Apply]: decode the entry, then switch on [cmd.Op]. The
    returned [interface{}] is the decode error or [nil]. *)
Definition Apply (m : MemStore) (logData : option jval) : MemStore * option error :=
  match unmarshal_RaftCommand logData with
  | inr e => (m, Some e)
  | inl cmd =>
      if String.eqb (Op cmd) "set" then (fst (MemStore_Set m (Key cmd) (Value cmd)), None)
      else if String.eqb (Op cmd) "delete" then (fst (MemStore_Delete m (Key cmd)), None)
      else (m, None)
  end.

(** The commands built by [RaftStore.Set] and [RaftStore.Delete]. *)
Definition set_command (key value : string) : RaftCommand :=
  {| Op := "set"; Key := key; Value := value |}.

Definition delete_command (key : string) : RaftCommand :=
  {| Op := "delete"; Key := key; Value := "" |}.

(** The log entry a proposal carries: [data, _ := json.Marshal(cmd)]. *)
Definition set_entry (key value : string) : option jval :=
  Some (marshal_RaftCommand (set_command key value)).

Definition delete_entry (key : string) : option jval :=
  Some (marshal_RaftCommand (delete_command key)).

Example apply_set_example :
  MemStore_Get (fst (Apply NewMemStore (set_entry "a" "1"))) "a" = ("1", true).
Proof. reflexivity. Qed.

(* ================================================================== *)
(** ** The [kv.Store] interface (src/pkg/kv/kv.go) *)

(** [Get] does not change the store; [Set] and [Delete] return the new
    store state together with their [error] result. *)
Class KVStore (S : Type) := {
  kv_Get : S -> string -> string * bool;
  kv_Set : S -> string -> string -> S * option error;
  kv_Delete : S -> string -> S * option error
}.

#[global] Instance MemStore_KVStore : KVStore MemStore := {
  kv_Get := MemStore_Get;
  kv_Set := MemStore_Set;
  kv_Delete := MemStore_Delete
}.

(** A [RaftStore] holds the local [MemStore] and the consensus engine.
    [rs_raft data] is what [rs.raft.Apply(data, 0).Error()] resolves to
    for a proposed entry; when it resolves to [nil] the entry has been
    committed and the FSM has applied it to the local store. *)
Record RaftStore := {
  rs_store : MemStore;
  rs_raft : option jval -> option error
}.

Definition RaftStore_propose (rs : RaftStore) (entry : option jval)
  : RaftStore * option error :=
  match rs_raft rs entry with
  | Some e => (rs, Some e)
  | None => ({| rs_store := fst (Apply (rs_store rs) entry); rs_raft := rs_raft rs |}, None)
  end.

Definition RaftStore_Set (rs : RaftStore) (key value : string) : RaftStore * option error :=
  RaftStore_propose rs (set_entry key value).

Definition RaftStore_Delete (rs : RaftStore) (key : string) : RaftStore * option error :=
  RaftStore_propose rs (delete_entry key).

Definition RaftStore_Get (rs : RaftStore) (key : string) : string * bool :=
  MemStore_Get (rs_store rs) key.

#[global] Instance RaftStore_KVStore : KVStore RaftStore := {
  kv_Get := RaftStore_Get;
  kv_Set := RaftStore_Set;
  kv_Delete := RaftStore_Delete
}.

(* ================================================================== *)
(** ** Machine integers and durations *)

Definition two64 : Z := 2 ^ 64.
Definition two63 : Z := 2 ^ 63.

(** [uint64(x)] and unsigned addition wrap modulo 2^64. *)
Definition to_uint64 (x : Z) : Z := x mod two64.

(** [int64(x)] / [time.Duration(x)] of an unsigned 64-bit value. *)
Definition to_int64 (x : Z) : Z :=
  let y := x mod two64 in if y <? two63 then y else y - two64.

(** [t.Sub(u)] on times saturates at the bounds of [time.Duration]. *)
Definition time_sub (t u : Z) : Z :=
  Z.max (- two63) (Z.min (two63 - 1) (t - u)).

(* ================================================================== *)
(** ** C8: InstrumentedStore (src/internal/store/instrumented.go) *)

Record Metrics := {
  GetCount : Z; SetCount : Z; DeleteCount : Z;
  GetLatencyNs : Z; SetLatencyNs : Z; DeleteLatencyNs : Z
}.

Definition zero_metrics : Metrics :=
  {| GetCount := 0; SetCount := 0; DeleteCount := 0;
     GetLatencyNs := 0; SetLatencyNs := 0; DeleteLatencyNs := 0 |}.

Record InstrumentedStore (S : Type) := { inner : S; metrics : Metrics }.
Arguments inner {S}.
Arguments metrics {S}.

Definition NewInstrumentedStore {S} (s : S) : InstrumentedStore S :=
  {| inner := s; metrics := zero_metrics |}.

(** [atomic.Uint64.Add] *)
Definition add_u64 (a b : Z) : Z := to_uint64 (a + b).

(** [start := time.Now()] and the reading taken by [time.Since(start)]
    are passed in as [start] and [stop]. *)
Definition Instrumented_Get {S} `{KVStore S} (start stop : Z)
    (s : InstrumentedStore S) (key : string)
  : (string * bool) * InstrumentedStore S :=
  let '(value, found) := kv_Get (inner s) key in
  let elapsed := time_sub stop start in
  let m := metrics s in
  ((value, found),
   {| inner := inner s;
      metrics := {| GetCount := add_u64 (GetCount m) 1;
                    SetCount := SetCount m; DeleteCount := DeleteCount m;
                    GetLatencyNs := add_u64 (GetLatencyNs m) (to_uint64 elapsed);
                    SetLatencyNs := SetLatencyNs m;
                    DeleteLatencyNs := DeleteLatencyNs m |} |}).

Definition Instrumented_Set {S} `{KVStore S} (start stop : Z)
    (s : InstrumentedStore S) (key value : string)
  : InstrumentedStore S * option error :=
  let '(s', err) := kv_Set (inner s) key value in
  let elapsed := time_sub stop start in
  let m := metrics s in
  ({| inner := s';
      metrics := {| GetCount := GetCount m;
                    SetCount := add_u64 (SetCount m) 1; DeleteCount := DeleteCount m;
                    GetLatencyNs := GetLatencyNs m;
                    SetLatencyNs := add_u64 (SetLatencyNs m) (to_uint64 elapsed);
                    DeleteLatencyNs := DeleteLatencyNs m |} |}, err).

Definition Instrumented_Delete {S} `{KVStore S} (start stop : Z)
    (s : InstrumentedStore S) (key : string)
  : InstrumentedStore S * option error :=
  let '(s', err) := kv_Delete (inner s) key in
  let elapsed := time_sub stop start in
  let m := metrics s in
  ({| inner := s';
      metrics := {| GetCount := GetCount m; SetCount := SetCount m;
                    DeleteCount := add_u64 (DeleteCount m) 1;
                    GetLatencyNs := GetLatencyNs m; SetLatencyNs := SetLatencyNs m;
                    DeleteLatencyNs := add_u64 (DeleteLatencyNs m) (to_uint64 elapsed) |} |},
   err).

Record MetricsSnapshot := {
  snap_GetCount : Z; snap_SetCount : Z; snap_DeleteCount : Z;
  GetAvgLatency : Z; SetAvgLatency : Z; DeleteAvgLatency : Z
}.

(** [avgLatency]: [time.Duration(totalNs / count)], a conversion of an
    unsigned quotient to the signed [time.Duration]. *)
Definition avgLatency (totalNs count : Z) : Z :=
  if count =? 0 then 0 else to_int64 (totalNs / count).

Definition GetMetrics {S} (s : InstrumentedStore S) : MetricsSnapshot :=
  let m := metrics s in
  {| snap_GetCount := GetCount m; snap_SetCount := SetCount m;
     snap_DeleteCount := DeleteCount m;
     GetAvgLatency := avgLatency (GetLatencyNs m) (GetCount m);
     SetAvgLatency := avgLatency (SetLatencyNs m) (SetCount m);
     DeleteAvgLatency := avgLatency (DeleteLatencyNs m) (DeleteCount m) |}.

#[global] Instance Instrumented_KVStore {S} `{KVStore S} (start stop : Z)
  : KVStore (InstrumentedStore S) := {
  kv_Get := fun s k => fst (Instrumented_Get start stop s k);
  kv_Set := Instrumented_Set start stop;
  kv_Delete := Instrumented_Delete start stop
}.

(* ================================================================== *)
(** ** C7: the HTTP request router (src/unnamed/part_001) *)

(** An incoming request: its method, [r.URL.Query().Get("key")], and its
    body as the JSON decoder reads it ([None] when decoding the first
    value fails, e.g. an empty or malformed body). *)
Record Request := { method : string; query_key : string; body : option jval }.

(** The status line and body a client receives. Header maps are not
    modelled. *)
Record Response := { status : Z; resp_body : string }.

(** [http.Error(w, msg, code)] writes [code] and the line [msg]. *)
Definition http_Error (msg : string) (code : Z) : Response :=
  {| status := code; resp_body := msg ++ String "010"%char "" |}.

Definition StatusOK : Z := 200.
Definition StatusNoContent : Z := 204.
Definition StatusBadRequest : Z := 400.
Definition StatusNotFound : Z := 404.
Definition StatusMethodNotAllowed : Z := 405.
Definition StatusInternalServerError : Z := 500.
Definition StatusBadGateway : Z := 502.
Definition StatusServiceUnavailable : Z := 503.

Inductive RaftState := Follower | Candidate | Leader | Shutdown.

Definition is_leader (st : RaftState) : bool :=
  match st with Leader => true | _ => false end.

(** [type Server struct { Store; Raft; MandiAddr; HTTPPort }]: [Raft] is
    a possibly nil pointer, seen through its [State()]. *)
Record Server (S : Type) := { Store : S; Raft : option RaftState }.
Arguments Store {S}.
Arguments Raft {S}.

(** [s.Raft != nil && s.Raft.State() != raft.Leader] *)
Definition not_leader {S} (s : Server S) : bool :=
  match Raft s with Some st => negb (is_leader st) | None => false end.

(** An outbound request issued by [http.Get] or [http.Post]. *)
Record OutRequest := {
  out_method : string; out_url : string;
  out_content_type : string; out_body : option jval
}.

(** The network as a non-leader sees it: [getLeaderHTTPAddr()] (a
    discovery lookup, "" when it fails), the outcome of an outbound
    request (a response, or the transport error's message), and
    [read_once]: the bytes that one [resp.Body.Read(buf[:])] into a
    4096-byte buffer delivers of a response body, which the transport
    decides (a prefix of the body, possibly shorter than the buffer). *)
Record Env := {
  leader_http : string;
  send : OutRequest -> Response + string;
  read_once : string -> string
}.

Definition handleGet {S} `{KVStore S} (s : Server S) (env : Env) (r : Request)
  : Response :=
  if negb (String.eqb (method r) "GET") then
    http_Error "Method not allowed" StatusMethodNotAllowed
  else if not_leader s then
    let leaderHTTP := leader_http env in
    if String.eqb leaderHTTP "" then
      http_Error "Not leader and no leader known" StatusServiceUnavailable
    else
      let targetURL := "http://" ++ leaderHTTP ++ "/get?key=" ++ query_key r in
      match send env {| out_method := "GET"; out_url := targetURL;
                        out_content_type := ""; out_body := None |} with
      | inr err =>
          http_Error ("Failed to forward to leader: " ++ err) StatusBadGateway
      | inl resp =>
          {| status := status resp;
             resp_body := if status resp =? StatusOK then read_once env (resp_body resp) else "" |}
      end
  else
    let key := query_key r in
    if String.eqb key "" then http_Error "Missing key parameter" StatusBadRequest
    else
      let '(value, ok) := kv_Get (Store s) key in
      if negb ok then http_Error "Key not found" StatusNotFound
      else {| status := StatusOK; resp_body := value |}.

(** Decoding of [struct { Key string; Value string }] and
    [struct { Key string }] by [json.NewDecoder(r.Body).Decode(&req)]. *)
Definition decode_set_request (d : option jval) : option (string * string) :=
  match d with
  | None => None
  | Some JNull => Some ("", "")
  | Some (JObj fs) =>
      let '(k, b1) := decode_string_field "key" fs "" in
      let '(v, b2) := decode_string_field "value" fs "" in
      if b1 || b2 then None else Some (k, v)
  | Some _ => None
  end.

Definition decode_delete_request (d : option jval) : option string :=
  match d with
  | None => None
  | Some JNull => Some ""
  | Some (JObj fs) =>
      let '(k, b1) := decode_string_field "key" fs "" in
      if b1 then None else Some k
  | Some _ => None
  end.

(** The forwarding branch shared by [handleSet] and [handleDelete]:
    [http.Post(targetURL, "application/json", r.Body)], then
    [w.WriteHeader(resp.StatusCode)] only. *)
Definition forward_post (env : Env) (path : string) (r : Request) : Response :=
  let leaderHTTP := leader_http env in
  if String.eqb leaderHTTP "" then
    http_Error "Not leader and no leader known" StatusServiceUnavailable
  else
    let targetURL := "http://" ++ leaderHTTP ++ path in
    match send env {| out_method := "POST"; out_url := targetURL;
                      out_content_type := "application/json"; out_body := body r |} with
    | inr err => http_Error ("Failed to forward to leader: " ++ err) StatusBadGateway
    | inl resp => {| status := status resp; resp_body := "" |}
    end.

Definition handleSet {S} `{KVStore S} (s : Server S) (env : Env) (r : Request)
  : Response * Server S :=
  if negb (String.eqb (method r) "POST") then
    (http_Error "Method not allowed" StatusMethodNotAllowed, s)
  else if not_leader s then (forward_post env "/set" r, s)
  else
    match decode_set_request (body r) with
    | None => (http_Error "Invalid JSON" StatusBadRequest, s)
    | Some (key, value) =>
        if String.eqb key "" then (http_Error "Missing key field" StatusBadRequest, s)
        else
          let '(st', err) := kv_Set (Store s) key value in
          let s' := {| Store := st'; Raft := Raft s |} in
          match err with
          | Some _ => (http_Error "Failed to set key" StatusInternalServerError, s')
          | None => ({| status := StatusNoContent; resp_body := "" |}, s')
          end
    end.

Definition handleDelete {S} `{KVStore S} (s : Server S) (env : Env) (r : Request)
  : Response * Server S :=
  if negb (String.eqb (method r) "POST") then
    (http_Error "Method not allowed" StatusMethodNotAllowed, s)
  else if not_leader s then (forward_post env "/delete" r, s)
  else
    match decode_delete_request (body r) with
    | None => (http_Error "Invalid JSON" StatusBadRequest, s)
    | Some key =>
        if String.eqb key "" then (http_Error "Missing key field" StatusBadRequest, s)
        else
          let '(st', err) := kv_Delete (Store s) key in
          let s' := {| Store := st'; Raft := Raft s |} in
          match err with
          | Some _ => (http_Error "Failed to delete key" StatusInternalServerError, s')
          | None => ({| status := StatusNoContent; resp_body := "" |}, s')
          end
    end.

(* ================================================================== *)
(** ** C4: the discovery registry, mandi (src/cmd/kv-single/main.go) *)

(** [LeaderInfo]; [UpdatedAt] is a time in nanoseconds. *)
Record LeaderInfo := {
  ID : string; Addr : string; HTTPAddr : string; GRPCAddr : string;
  Term : Z; UpdatedAt : Z
}.

Record JoinRequest := { jr_ID : string; jr_Addr : string; StartedAt : Z }.

Record MandiStore := {
  leader : option LeaderInfo;
  joinRequests : gmap string JoinRequest
}.

Definition NewStore : MandiStore := {| leader := None; joinRequests := ∅ |}.

(** [leaderTTL = 10 * time.Second] *)
Definition leaderTTL : Z := 10 * 1000000000.

(** What [GET /leader] writes: the encoded record, or an error reply. *)
Inductive LeaderReply :=
| LeaderFound (info : LeaderInfo)
| LeaderError (code : Z) (msg : string).

(** [time.Since(t)] at the instant [now]. *)
Definition since (now t : Z) : Z := time_sub now t.

Definition getLeader (s : MandiStore) (now : Z) : LeaderReply :=
  match leader s with
  | None => LeaderError StatusNotFound ("leader not available" ++ String "010"%char "")
  | Some l =>
      if since now (UpdatedAt l) >? leaderTTL
      then LeaderError StatusNotFound ("leader not available" ++ String "010"%char "")
      else LeaderFound l
  end.

(** [putLeader]: the body as decoded into [LeaderInfo] (or the decoder's
    error message), stamped with [time.Now()]. Returns the status code. *)
Definition putLeader (s : MandiStore) (decoded : LeaderInfo + string) (now : Z)
  : Z * MandiStore :=
  match decoded with
  | inr _ => (StatusBadRequest, s)
  | inl info =>
      let info' := {| ID := ID info; Addr := Addr info; HTTPAddr := HTTPAddr info;
                      GRPCAddr := GRPCAddr info; Term := Term info; UpdatedAt := now |} in
      (StatusNoContent, {| leader := Some info'; joinRequests := joinRequests s |})
  end.

(* ================================================================== *)
(** ** More of the registry: join requests and the sweeper *)

(** [joinRequestTTL = 30 * time.Second] *)
Definition joinRequestTTL : Z := 30 * 1000000000.

(** [postJoinRequest]: the body as decoded into [JoinRequest] (or the
    decoder's error message); [StartedAt] is stamped with [time.Now()]
    and the entry stored under its [ID]. *)
Definition postJoinRequest (s : MandiStore) (decoded : JoinRequest + string) (now : Z)
  : Z * MandiStore :=
  match decoded with
  | inr _ => (StatusBadRequest, s)
  | inl jr =>
      let jr' := {| jr_ID := jr_ID jr; jr_Addr := jr_Addr jr; StartedAt := now |} in
      (StatusNoContent, {| leader := leader s; joinRequests := <[jr_ID jr := jr']> (joinRequests s) |})
  end.

(** [listJoinRequests]: the entries appended to a nil slice while ranging
    over the map ([None] is the nil slice, encoded as [null]). Go ranges
    in an unspecified order; the embedding uses [map_to_list]'s order. *)
Definition listJoinRequests (s : MandiStore) : option (list JoinRequest) :=
  match map_to_list (joinRequests s) with
  | [] => None
  | l => Some (map snd l)
  end.

(** [deleteJoinRequest] with [id := r.URL.Query().Get("id")]. *)
Definition deleteJoinRequest (s : MandiStore) (id : string) : Z * MandiStore :=
  if String.eqb id "" then (StatusBadRequest, s)
  else (StatusNoContent, {| leader := leader s; joinRequests := delete id (joinRequests s) |}).

(** One tick of [cleanupLoop] at the instant [now]. *)
Definition cleanup_tick (s : MandiStore) (now : Z) : MandiStore :=
  {| leader :=
       match leader s with
       | Some l => if since now (UpdatedAt l) >? leaderTTL then None else Some l
       | None => None
       end;
     joinRequests :=
       filter (fun kv : string * JoinRequest => (since now (StartedAt kv.2) >? joinRequestTTL) = false)
         (joinRequests s) |}.

(** The leader record as [json.NewEncoder(w).Encode(s.leader)] writes it;
    [fmt_time] is the RFC 3339 rendering of [time.Time]. *)
Definition encode_LeaderInfo (fmt_time : Z -> string) (l : LeaderInfo) : jval :=
  JObj [("id", JStr (ID l)); ("addr", JStr (Addr l)); ("http_addr", JStr (HTTPAddr l));
        ("grpc_addr", JStr (GRPCAddr l)); ("term", JNum (Term l));
        ("updated_at", JStr (fmt_time (UpdatedAt l)))].

(** The status and body of [GET /leader] as a client receives them; the
    text of an error reply is not JSON. *)
Definition leader_reply_wire (fmt_time : Z -> string) (r : LeaderReply) : Z * option jval :=
  match r with
  | LeaderFound l => (StatusOK, Some (encode_LeaderInfo fmt_time l))
  | LeaderError code _ => (code, None)
  end.

(** [Server.getLeaderHTTPAddr] (src/unnamed/part_001): [reply] is the
    outcome of [http.Get(s.MandiAddr + "/leader")], [None] on a
    transport error. *)
Definition getLeaderHTTPAddr (mandiAddr : string) (reply : option (Z * option jval)) : string :=
  if String.eqb mandiAddr "" then ""
  else match reply with
       | None => ""
       | Some (code, b) =>
           if negb (code =? StatusOK) then ""
           else match b with
                | Some JNull => ""
                | Some (JObj fs) =>
                    let '(a, bad) := decode_string_field "http_addr" fs "" in
                    if bad then "" else a
                | _ => ""
                end
       end.

(* ================================================================== *)
(** ** The leader's duties (src/unnamed/part_003) *)

(** The host part of [registerLeader]'s raft address: the text before
    the first ':' ([None] when there is none). *)
Fixpoint host_before_colon (s : string) : option string :=
  match s with
  | EmptyString => None
  | String c r =>
      if Ascii.eqb c ":" then Some ""
      else option_map (String c) (host_before_colon r)
  end.

Definition hostname_of (addr : string) : string :=
  match host_before_colon addr with Some h => h | None => "localhost" end.

(** [if len(a) > 0 && a[0] == ':' { full = hostname + a }] *)
Definition full_addr (hostname a : string) : string :=
  match a with
  | String c _ => if Ascii.eqb c ":" then hostname ++ a else a
  | EmptyString => a
  end.

(** The record [registerLeader] PUTs to the registry. *)
Definition registerLeader_info (nodeID addr httpAddr grpcAddr : string) (term now : Z)
  : LeaderInfo :=
  let hostname := hostname_of addr in
  {| ID := nodeID; Addr := addr;
     HTTPAddr := full_addr hostname httpAddr; GRPCAddr := full_addr hostname grpcAddr;
     Term := term; UpdatedAt := now |}.

(** The calls of one join-drain tick of [runLeaderDuties]: [r.AddNonvoter],
    [r.AddVoter], and [DeleteJoin id], the request
    [DELETE mandi + "/join-requests?id=" + id] with the id written into
    the URL as it is, unescaped. *)
Inductive MemberAction :=
| AddNonvoter (id addr : string)
| AddVoter (id addr : string)
| DeleteJoin (id : string).

(** [nonvoter_ok j] / [voter_ok j]: whether [r.AddNonvoter] / [r.AddVoter]
    for [j] resolve without error. *)
Fixpoint drain_joins (nodeID : string) (nonvoter_ok voter_ok : JoinRequest -> bool)
    (joins : list JoinRequest) : list MemberAction :=
  match joins with
  | [] => []
  | j :: js =>
      if String.eqb (jr_ID j) nodeID then drain_joins nodeID nonvoter_ok voter_ok js
      else
        AddNonvoter (jr_ID j) (jr_Addr j) ::
        (if nonvoter_ok j then
           AddVoter (jr_ID j) (jr_Addr j) :: (if voter_ok j then [DeleteJoin (jr_ID j)] else [])
         else []) ++ drain_joins nodeID nonvoter_ok voter_ok js
  end.

(* ================================================================== *)
(** ** More of the routers and the metrics wrapper *)

(** [ResetMetrics] *)
Definition ResetMetrics {S} (s : InstrumentedStore S) : InstrumentedStore S :=
  {| inner := inner s; metrics := zero_metrics |}.

(** A call on the wrapper with the two clock readings it takes. *)
Inductive iop :=
| IGet (start stop : Z) (k : string)
| ISet (start stop : Z) (k v : string)
| IDelete (start stop : Z) (k : string).

Definition run_iop {S} `{KVStore S} (s : InstrumentedStore S) (o : iop) : InstrumentedStore S :=
  match o with
  | IGet a b k => snd (Instrumented_Get a b s k)
  | ISet a b k v => fst (Instrumented_Set a b s k v)
  | IDelete a b k => fst (Instrumented_Delete a b s k)
  end.

Definition run_iops {S} `{KVStore S} (s : InstrumentedStore S) (ops : list iop)
  : InstrumentedStore S :=
  fold_left run_iop ops s.

Definition is_get (o : iop) : bool := match o with IGet _ _ _ => true | _ => false end.
Definition is_set (o : iop) : bool := match o with ISet _ _ _ _ => true | _ => false end.
Definition is_delete (o : iop) : bool := match o with IDelete _ _ _ => true | _ => false end.

Definition count_ops (p : iop -> bool) (ops : list iop) : Z := Z.of_nat (List.length (List.filter p ops)).

(** The clock readings of a call are in order (the monotonic clock). *)
Definition clock_ok (o : iop) : Prop :=
  match o with
  | IGet a b _ | ISet a b _ _ | IDelete a b _ => a <= b
  end.

(** What happens to the wrapper: a call with its two clock readings, or
    [ResetMetrics]. The counters are unexported, so these are the only
    ways they change. *)
Inductive mevent := ECall (o : iop) | EReset.

Definition run_mevent {S} `{KVStore S} (s : InstrumentedStore S) (e : mevent)
  : InstrumentedStore S :=
  match e with ECall o => run_iop s o | EReset => ResetMetrics s end.

Definition run_mevents {S} `{KVStore S} (s : InstrumentedStore S) (evs : list mevent)
  : InstrumentedStore S :=
  fold_left run_mevent evs s.

Definition mevent_ok (e : mevent) : Prop :=
  match e with ECall o => clock_ok o | EReset => True end.

(** A class's counters as the wrapper keeps them when every elapsed time
    is a non-negative [time.Duration]: the cumulative latency is at most
    [count * (2^63 - 1)]. *)
Definition cls_ok (lat cnt : Z) : Prop := 0 <= cnt /\ 0 <= lat /\ lat <= cnt * (two63 - 1).

Definition metrics_ok (m : Metrics) : Prop :=
  cls_ok (GetLatencyNs m) (GetCount m) /\ cls_ok (SetLatencyNs m) (SetCount m) /\
  cls_ok (DeleteLatencyNs m) (DeleteCount m).

Definition count_sum (m : Metrics) : Z := GetCount m + SetCount m + DeleteCount m.

(** The raft address has no ':' in it. *)
Fixpoint colon_free (s : string) : bool :=
  match s with
  | EmptyString => true
  | String c r => negb (Ascii.eqb c ":") && colon_free r
  end.

(** The server id a membership action names. *)
Definition action_id (a : MemberAction) : string :=
  match a with AddNonvoter id _ | AddVoter id _ | DeleteJoin id => id end.

(* ================================================================== *)
(** ** The operation sequences of the properties *)

(** A client mutation, as [RaftStore.Set] / [RaftStore.Delete] propose it. *)
Inductive op := OpSet (k v : string) | OpDelete (k : string).

Definition op_entry (o : op) : option jval :=
  match o with OpSet k v => set_entry k v | OpDelete k => delete_entry k end.

(** The committed log, applied entry by entry by the FSM. *)
Definition apply_log (m : MemStore) (ops : list op) : MemStore :=
  fold_left (fun m o => fst (Apply m (op_entry o))) ops m.

Definition op_key (o : op) : string :=
  match o with OpSet k _ => k | OpDelete k => k end.

(** Following the specification's words: the value of the last [set(k, v)]
    that no later [delete(k)] follows. *)
Definition last_write (k : string) (ops : list op) : option string :=
  match find (fun o => String.eqb (op_key o) k) (rev ops) with
  | Some (OpSet _ v) => Some v
  | _ => None
  end.

Example last_write_example :
  last_write "a" [OpSet "a" "1"; OpSet "b" "2"; OpDelete "a"; OpSet "a" "3"; OpDelete "b"]
  = Some "3".
Proof. reflexivity. Qed.

(* ================================================================== *)
(** ** Lemmas on the FSM *)

Lemma Apply_set_entry (m : MemStore) (k v : string) :
  Apply m (set_entry k v) = ({| data := <[k := v]> (data m) |}, None).
Proof. reflexivity. Qed.

Lemma Apply_delete_entry (m : MemStore) (k : string) :
  Apply m (delete_entry k) = ({| data := delete k (data m) |}, None).
Proof. reflexivity. Qed.

Lemma unmarshal_marshal (c : RaftCommand) :
  unmarshal_RaftCommand (Some (marshal_RaftCommand c)) = inl c.
Proof. destruct c; reflexivity. Qed.

Lemma apply_log_snoc (m : MemStore) (ops : list op) (o : op) :
  apply_log m (ops ++ [o]) = fst (Apply (apply_log m ops) (op_entry o)).
Proof. unfold apply_log. by rewrite fold_left_app. Qed.

Lemma apply_log_lookup (m : MemStore) (ops : list op) (k : string) :
  data (apply_log m ops) !! k =
  match find (fun o => String.eqb (op_key o) k) (rev ops) with
  | Some (OpSet _ v) => Some v
  | Some (OpDelete _) => None
  | None => data m !! k
  end.
Proof.
  induction ops as [|o ops IH] using rev_ind; [done|].
  rewrite apply_log_snoc, rev_app_distr. cbn [rev app find].
  destruct o as [k' v|k']; cbn [op_entry op_key];
    [rewrite Apply_set_entry | rewrite Apply_delete_entry]; cbn [fst data];
    destruct (String.eqb_spec k' k) as [->|Hne].
  - by rewrite lookup_insert_eq.
  - by rewrite lookup_insert_ne.
  - by rewrite lookup_delete_eq.
  - by rewrite lookup_delete_ne.
Qed.

(* ================================================================== *)
(** ** Claims *)

(** C1: after any sequence of set/delete proposals has been applied by
    the FSM to a fresh store, [Get k] returns [(v, true)] for the value
    [v] of the last [set(k, v)] not followed by a [delete(k)], and
    [("", false)] when there is none. *)
Theorem C1_get_after_apply (ops : list op) (k : string) :
  MemStore_Get (apply_log NewMemStore ops) k =
  match last_write k ops with Some v => (v, true) | None => ("", false) end.
Proof.
  unfold MemStore_Get, last_write. rewrite apply_log_lookup.
  destruct (find _ (rev ops)) as [[]|]; reflexivity.
Qed.

(** C7: [delete(k); delete(k)] equals a single [delete(k)] and both calls
    return [nil]; [set(k,v); set(k,v)] leaves [k -> v] and both calls
    return [nil]. *)
Theorem C7_idempotent (s : MemStore) (k v : string) :
  (let '(s1, e1) := MemStore_Delete s k in
   let '(s2, e2) := MemStore_Delete s1 k in
   s2 = s1 /\ e1 = None /\ e2 = None) /\
  (let '(s1, e1) := MemStore_Set s k v in
   let '(s2, e2) := MemStore_Set s1 k v in
   s2 = s1 /\ MemStore_Get s2 k = (v, true) /\ e1 = None /\ e2 = None).
Proof.
  split; cbn.
  - by rewrite delete_delete_eq.
  - rewrite insert_insert_eq. unfold MemStore_Get; cbn.
    by rewrite lookup_insert_eq.
Qed.

(** C8: an entry whose decoded [Op] is neither "set" nor "delete" leaves
    the map unchanged (and Apply returns [nil]). *)
Theorem C8_unknown_op_ignored (m : MemStore) (d : option jval) (cmd : RaftCommand) :
  unmarshal_RaftCommand d = inl cmd ->
  Op cmd <> "set" -> Op cmd <> "delete" ->
  Apply m d = (m, None).
Proof.
  intros Hd Hs Hdel. unfold Apply. rewrite Hd.
  apply String.eqb_neq in Hs, Hdel. by rewrite Hs, Hdel.
Qed.

Lemma C8_unknown_op_ignored_witness :
  Apply NewMemStore (Some (JObj [("op", JStr "cas"); ("key", JStr "a")])) = (NewMemStore, None).
Proof.
  apply (C8_unknown_op_ignored NewMemStore _ {| Op := "cas"; Key := "a"; Value := "" |});
    [reflexivity | discriminate | discriminate].
Defined.

(** C9: the metrics wrapper changes no result: [Get] returns the wrapped
    store's pair, [Set] and [Delete] return the wrapped store's error and
    leave the wrapped store in the state the wrapped call produces. *)
Theorem C9_instrumented_transparent {S} `{KVStore S}
    (start stop : Z) (s : InstrumentedStore S) (k v : string) :
  fst (Instrumented_Get start stop s k) = kv_Get (inner s) k /\
  inner (snd (Instrumented_Get start stop s k)) = inner s /\
  snd (Instrumented_Set start stop s k v) = snd (kv_Set (inner s) k v) /\
  inner (fst (Instrumented_Set start stop s k v)) = fst (kv_Set (inner s) k v) /\
  snd (Instrumented_Delete start stop s k) = snd (kv_Delete (inner s) k) /\
  inner (fst (Instrumented_Delete start stop s k)) = fst (kv_Delete (inner s) k).
Proof.
  unfold Instrumented_Get, Instrumented_Set, Instrumented_Delete.
  destruct (kv_Get (inner s) k), (kv_Set (inner s) k v), (kv_Delete (inner s) k).
  repeat split.
Qed.

Lemma two64_two63 : two64 = 2 * two63.
Proof. reflexivity. Qed.

Lemma two63_pos : 0 < two63.
Proof. reflexivity. Qed.

(** The snapshot reports [avgLatency] of each class's counters. *)
Lemma GetMetrics_avg {S} (s : InstrumentedStore S) :
  GetAvgLatency (GetMetrics s) = avgLatency (GetLatencyNs (metrics s)) (GetCount (metrics s)) /\
  SetAvgLatency (GetMetrics s) = avgLatency (SetLatencyNs (metrics s)) (SetCount (metrics s)) /\
  DeleteAvgLatency (GetMetrics s) =
    avgLatency (DeleteLatencyNs (metrics s)) (DeleteCount (metrics s)).
Proof. repeat split. Qed.

(* ================================================================== *)
(** ** The discovery registry *)

Lemma since_gt_ttl (now t : Z) :
  (since now t >? leaderTTL) = (now - t >? leaderTTL).
Proof.
  unfold since, time_sub, leaderTTL.
  assert (two63 = 9223372036854775808) by reflexivity.
  destruct (Z.gtb_spec (now - t) (10 * 1000000000));
    destruct (Z.gtb_spec (Z.max (- two63) (Z.min (two63 - 1) (now - t))) (10 * 1000000000));
    lia.
Qed.

(** C6: [GET /leader] returns the stored record exactly when
    [now - updated_at <= leader_ttl] (10 s), and otherwise, or with an
    empty slot, 404 "leader not available"; [PUT /leader] with a record
    replaces the slot with that record stamped [updated_at = now],
    whatever timestamp the client sent. *)
Theorem C6_leader_ttl :
  (forall (s : MandiStore) (now : Z),
    getLeader s now =
      match leader s with
      | Some l =>
          if now - UpdatedAt l <=? leaderTTL then LeaderFound l
          else LeaderError 404 ("leader not available" ++ String "010"%char "")
      | None => LeaderError 404 ("leader not available" ++ String "010"%char "")
      end) /\
  (forall (s : MandiStore) (info : LeaderInfo) (now : Z),
    putLeader s (inl info) now =
      (204, {| leader := Some {| ID := ID info; Addr := Addr info; HTTPAddr := HTTPAddr info;
                                 GRPCAddr := GRPCAddr info; Term := Term info;
                                 UpdatedAt := now |};
               joinRequests := joinRequests s |})).
Proof.
  split; [|reflexivity].
  intros s now. unfold getLeader.
  destruct (leader s) as [l|]; [|reflexivity].
  rewrite since_gt_ttl.
  destruct (Z.gtb_spec (now - UpdatedAt l) leaderTTL);
    destruct (Z.leb_spec (now - UpdatedAt l) leaderTTL); first [reflexivity | lia].
Qed.

(* ================================================================== *)
(** ** Log entries *)

Definition has_member (name : string) (j : option jval) : bool :=
  match j with
  | Some (JObj fs) => existsb (fun nv => String.eqb (fst nv) name) fs
  | _ => false
  end.

(** C5, as stated: the entry of a delete proposal carries a [Value]
    member, so "value present iff op = set" fails. *)
Lemma C5_delete_entry_has_value :
  delete_entry "a" = Some (JObj [("Op", JStr "delete"); ("Key", JStr "a"); ("Value", JStr "")]) /\
  has_member "Value" (delete_entry "a") = true.
Proof. split; reflexivity. Qed.

(** C5, amended: a set proposal's entry is [{Op: "set", Key: k, Value: v}]
    and a delete proposal's entry is [{Op: "delete", Key: k, Value: ""}];
    both decode back to their command, and the FSM ignores the value of
    a delete entry. *)
Theorem C5_log_entry_shape (rs : RaftStore) (m : MemStore) (k v : string) :
  RaftStore_Set rs k v =
    RaftStore_propose rs (Some (JObj [("Op", JStr "set"); ("Key", JStr k); ("Value", JStr v)])) /\
  RaftStore_Delete rs k =
    RaftStore_propose rs (Some (JObj [("Op", JStr "delete"); ("Key", JStr k); ("Value", JStr "")])) /\
  unmarshal_RaftCommand (set_entry k v) = inl (set_command k v) /\
  unmarshal_RaftCommand (delete_entry k) = inl (delete_command k) /\
  Apply m (Some (JObj [("Op", JStr "delete"); ("Key", JStr k); ("Value", JStr v)])) =
    Apply m (delete_entry k).
Proof.
  repeat split; try reflexivity; apply unmarshal_marshal.
Qed.

(* ================================================================== *)
(** ** Error mapping of proposals *)

(** A leader whose consensus engine rejects every proposal with [e]. *)
Definition rejecting_leader (e : error) : Server RaftStore :=
  {| Store := {| rs_store := NewMemStore; rs_raft := fun _ => Some e |};
     Raft := Some Leader |}.

Definition no_leader_env : Env :=
  {| leader_http := ""; send := fun _ => inr "connection refused";
     read_once := fun b => substring 0 4096 b |}.

Definition set_a_1 : Request :=
  {| method := "POST"; query_key := "";
     body := Some (JObj [("key", JStr "a"); ("value", JStr "1")]) |}.

Definition delete_a : Request :=
  {| method := "POST"; query_key := ""; body := Some (JObj [("key", JStr "a")]) |}.

(** C3, as stated: a [NotLeader] or timeout rejection of a set on the
    leader is answered 500, not 503. *)
Lemma C3_not_leader_gives_500 :
  status (fst (handleSet (rejecting_leader ErrNotLeader) no_leader_env set_a_1)) = 500 /\
  status (fst (handleSet (rejecting_leader ErrEnqueueTimeout) no_leader_env set_a_1)) = 500 /\
  status (fst (handleDelete (rejecting_leader ErrNotLeader) no_leader_env delete_a)) = 500.
Proof. repeat split. Qed.

(** C3, amended: on the leader, any error returned by the store's [Set]
    or [Delete] (whatever its kind) is answered 500 "Failed to set key" /
    "Failed to delete key", without consulting the discovery registry
    (the answer does not depend on the environment). *)
Theorem C3_store_error_is_500 {S} `{KVStore S} (s : Server S) (env : Env) (r : Request)
    (k v : string) (st' : S) (e : error) :
  method r = "POST" -> not_leader s = false -> k <> "" ->
  (decode_set_request (body r) = Some (k, v) ->
   kv_Set (Store s) k v = (st', Some e) ->
   handleSet s env r =
     (http_Error "Failed to set key" StatusInternalServerError,
      {| Store := st'; Raft := Raft s |})) /\
  (decode_delete_request (body r) = Some k ->
   kv_Delete (Store s) k = (st', Some e) ->
   handleDelete s env r =
     (http_Error "Failed to delete key" StatusInternalServerError,
      {| Store := st'; Raft := Raft s |})).
Proof.
  intros Hm Hl Hk. apply String.eqb_neq in Hk.
  split; intros Hd Hs;
    unfold handleSet, handleDelete; rewrite Hm, Hl, Hd; cbn; rewrite Hk, Hs; reflexivity.
Qed.

Lemma C3_store_error_is_500_witness :
  handleSet (rejecting_leader ErrNotLeader) no_leader_env set_a_1 =
    (http_Error "Failed to set key" StatusInternalServerError, rejecting_leader ErrNotLeader).
Proof.
  apply (proj1 (C3_store_error_is_500 (rejecting_leader ErrNotLeader) no_leader_env set_a_1
                  "a" "1" (Store (rejecting_leader ErrNotLeader)) ErrNotLeader
                  eq_refl eq_refl ltac:(discriminate)));
    reflexivity.
Defined.

(* ================================================================== *)
(** ** Validation and the role check *)

(** [GRPCServer.Get] (src/unnamed/part_000): the key is checked before
    the role. The forwarded call is the outcome [grpc_fwd]. *)
Inductive Code := InvalidArgument | Unavailable | Internal.

Inductive GrpcResult :=
| GetResponse (value : string) (found : bool)
| GrpcError (c : Code) (msg : string).

Definition GRPCServer_Get {S} `{KVStore S} (s : Server S) (leaderGRPC : string)
    (grpc_fwd : GrpcResult) (key : string) : GrpcResult :=
  if String.eqb key "" then GrpcError InvalidArgument "key is required"
  else if not_leader s then
    if String.eqb leaderGRPC "" then GrpcError Unavailable "Not leader and no leader known"
    else grpc_fwd
  else let '(value, found) := kv_Get (Store s) key in GetResponse value found.

(** Replies of [GRPCServer.Set] and [GRPCServer.Delete]. *)
Inductive GrpcReply :=
| SuccessReply (success : bool)
| GrpcFail (c : Code) (msg : string).

(** [fwd] is the reply of the call forwarded to the leader. *)
Definition GRPCServer_Set {S} `{KVStore S} (s : Server S) (leaderGRPC : string)
    (fwd : GrpcReply) (key value : string) : GrpcReply * Server S :=
  if String.eqb key "" then (GrpcFail InvalidArgument "key is required", s)
  else if not_leader s then
    if String.eqb leaderGRPC "" then (GrpcFail Unavailable "Not leader and no leader known", s)
    else (fwd, s)
  else
    let '(st', err) := kv_Set (Store s) key value in
    let s' := {| Store := st'; Raft := Raft s |} in
    match err with
    | Some _ => (GrpcFail Internal "failed to set key", s')
    | None => (SuccessReply true, s')
    end.

Definition GRPCServer_Delete {S} `{KVStore S} (s : Server S) (leaderGRPC : string)
    (fwd : GrpcReply) (key : string) : GrpcReply * Server S :=
  if String.eqb key "" then (GrpcFail InvalidArgument "key is required", s)
  else if not_leader s then
    if String.eqb leaderGRPC "" then (GrpcFail Unavailable "Not leader and no leader known", s)
    else (fwd, s)
  else
    let '(st', err) := kv_Delete (Store s) key in
    let s' := {| Store := st'; Raft := Raft s |} in
    match err with
    | Some _ => (GrpcFail Internal "failed to delete key", s')
    | None => (SuccessReply true, s')
    end.

Definition follower : Server MemStore := {| Store := NewMemStore; Raft := Some Follower |}.

Definition get_no_key : Request := {| method := "GET"; query_key := ""; body := None |}.

Definition set_bad_json : Request := {| method := "POST"; query_key := ""; body := None |}.

(** C4: on a non-leader that knows no leader, a malformed request (no
    [key] parameter, or a body that is not JSON) is answered 503 by the
    role check, which runs before validation; the RPC surface answers
    [InvalidArgument] for the same missing key. *)
Theorem C4_role_check_before_validation {S} `{KVStore S} (s : Server S) (env : Env)
    (r : Request) :
  not_leader s = true -> leader_http env = "" ->
  (method r = "GET" ->
   handleGet s env r = http_Error "Not leader and no leader known" StatusServiceUnavailable) /\
  (method r = "POST" ->
   fst (handleSet s env r) = http_Error "Not leader and no leader known" StatusServiceUnavailable /\
   fst (handleDelete s env r) =
     http_Error "Not leader and no leader known" StatusServiceUnavailable).
Proof.
  intros Hl He. split; intros Hm.
  - unfold handleGet. rewrite Hm, Hl, He. reflexivity.
  - unfold handleSet, handleDelete, forward_post. rewrite Hm, Hl, He. split; reflexivity.
Qed.

Lemma C4_role_check_before_validation_witness :
  status (handleGet follower no_leader_env get_no_key) = 503 /\
  status (fst (handleSet follower no_leader_env set_bad_json)) = 503 /\
  GRPCServer_Get follower "" (GrpcError Unavailable "") "" =
    GrpcError InvalidArgument "key is required".
Proof.
  split; [|split].
  - rewrite (proj1 (C4_role_check_before_validation follower no_leader_env get_no_key
                      eq_refl eq_refl) eq_refl).
    reflexivity.
  - rewrite (proj1 (proj2 (C4_role_check_before_validation follower no_leader_env set_bad_json
                             eq_refl eq_refl) eq_refl)).
    reflexivity.
  - reflexivity.
Defined.

(* ================================================================== *)
(** ** Forwarding *)

Definition leader_node : Server MemStore := {| Store := NewMemStore; Raft := Some Leader |}.

Definition get_a : Request := {| method := "GET"; query_key := "a"; body := None |}.

(** A follower whose forwarded requests reach [leader_node], which
    answers as it would answer the client's request itself. *)
Definition forwarding_env : Env :=
  {| leader_http := "node1:8080";
     send := fun _ => inl (handleGet leader_node no_leader_env get_a);
     read_once := fun b => substring 0 4096 b |}.




(* ================================================================== *)
(** ** Further properties of the code *)

(** [MemStore]: [Set] then [Get] reads the value back and [Delete] then
    [Get] reads ("", false); every other key reads as before. *)
Theorem X_memstore_roundtrip (s : MemStore) (k k' v : string) :
  MemStore_Get (fst (MemStore_Set s k v)) k' =
    (if String.eqb k k' then (v, true) else MemStore_Get s k') /\
  MemStore_Get (fst (MemStore_Delete s k)) k' =
    (if String.eqb k k' then ("", false) else MemStore_Get s k').
Proof.
  unfold MemStore_Get; cbn.
  destruct (String.eqb_spec k k') as [->|Hne].
  - by rewrite lookup_insert_eq, lookup_delete_eq.
  - by rewrite lookup_insert_ne, lookup_delete_ne.
Qed.

(** [MemStore]: mutations of two different keys commute. *)
Theorem X_memstore_commute (s : MemStore) (k1 k2 v1 v2 : string) :
  k1 <> k2 ->
  fst (MemStore_Set (fst (MemStore_Set s k1 v1)) k2 v2) =
    fst (MemStore_Set (fst (MemStore_Set s k2 v2)) k1 v1) /\
  fst (MemStore_Delete (fst (MemStore_Set s k1 v1)) k2) =
    fst (MemStore_Set (fst (MemStore_Delete s k2)) k1 v1) /\
  fst (MemStore_Delete (fst (MemStore_Delete s k1)) k2) =
    fst (MemStore_Delete (fst (MemStore_Delete s k2)) k1).
Proof.
  intros Hne. cbn. split; [|split]; f_equal.
  - by apply insert_insert_ne.
  - by apply delete_insert_ne.
  - by apply delete_delete.
Qed.

Lemma X_memstore_commute_witness :
  fst (MemStore_Set (fst (MemStore_Set NewMemStore "a" "1")) "b" "2") =
    fst (MemStore_Set (fst (MemStore_Set NewMemStore "b" "2")) "a" "1").
Proof. apply (X_memstore_commute NewMemStore "a" "b" "1" "2"). discriminate. Defined.

Lemma decode_string_field_bad_mono (name : string) (fs : list (string * jval))
    (v0 : string) (bad : bool) :
  bad = true ->
  snd (fold_left (fun (acc : string * bool) (kv : string * jval) =>
    let '(v0, bad) := acc in
    let '(n, v) := kv in
    if fold_eq n name then
      match v with
      | JStr s => (s, bad)
      | JNull => (v0, bad)
      | _ => (v0, true)
      end
    else acc) fs (v0, bad)) = true.
Proof.
  revert v0 bad. induction fs as [|[n v] fs IH]; intros v0 bad Hb; [done|].
  cbn. destruct (fold_eq n name); [|by apply IH].
  destruct v; apply IH; done.
Qed.

(** A member matching the field whose value is neither a string nor
    [null] makes the decoding of that field fail. *)
Lemma decode_string_field_type_error (name n : string) (fs : list (string * jval))
    (cur : string) (v : jval) :
  In (n, v) fs -> fold_eq n name = true ->
  (forall s, v <> JStr s) -> v <> JNull ->
  snd (decode_string_field name fs cur) = true.
Proof.
  unfold decode_string_field. generalize false as bad.
  revert cur. induction fs as [|[n' v'] fs IH]; intros cur bad Hin Hn Hs Hnull; [done|].
  destruct Hin as [Heq|Hin].
  - injection Heq as -> ->. cbn. rewrite Hn.
    destruct v; try (apply decode_string_field_bad_mono; reflexivity).
    all: exfalso; first [by apply Hnull | by eapply Hs].
  - cbn. destruct (fold_eq n' name); [destruct v'|]; by eapply IH.
Qed.

(** [Apply] on an entry it cannot decode returns the decoding error and
    leaves the store as it was: a syntax error, a top-level value that
    is neither an object nor [null], or an [Op]/[Key]/[Value] member
    (names matched without case) holding a number, a boolean, an array
    or an object. A [null] entry decodes to the zero command and is
    ignored without error. *)
Theorem X_apply_decode_errors (m : MemStore) :
  Apply m None = (m, Some ErrJSONSyntax) /\
  Apply m (Some JNull) = (m, None) /\
  (forall j, (forall fs, j <> JObj fs) -> j <> JNull -> Apply m (Some j) = (m, Some ErrJSONType)) /\
  (forall fs n v, In (n, v) fs ->
     (fold_eq n "Op" || fold_eq n "Key" || fold_eq n "Value") = true ->
     (forall s, v <> JStr s) -> v <> JNull ->
     Apply m (Some (JObj fs)) = (m, Some ErrJSONType)).
Proof.
  split; [reflexivity|]. split; [reflexivity|]. split.
  - intros j Hobj Hnull. unfold Apply, unmarshal_RaftCommand.
    destruct j; try reflexivity; [by destruct Hnull | by destruct (Hobj fields)].
  - intros fs n v Hin Hname Hs Hnull. unfold Apply, unmarshal_RaftCommand.
    destruct (decode_string_field "Op" fs "") as [op b1] eqn:E1.
    destruct (decode_string_field "Key" fs "") as [k b2] eqn:E2.
    destruct (decode_string_field "Value" fs "") as [v' b3] eqn:E3.
    assert (Hb : (b1 || b2 || b3) = true).
    { apply orb_true_iff in Hname as [Hname|Hname]; [apply orb_true_iff in Hname as [Hname|Hname]|].
      - pose proof (decode_string_field_type_error "Op" n fs "" v Hin Hname Hs Hnull) as H.
        rewrite E1 in H. cbn in H. by rewrite H.
      - pose proof (decode_string_field_type_error "Key" n fs "" v Hin Hname Hs Hnull) as H.
        rewrite E2 in H. cbn in H. subst. by rewrite orb_true_r.
      - pose proof (decode_string_field_type_error "Value" n fs "" v Hin Hname Hs Hnull) as H.
        rewrite E3 in H. cbn in H. subst. by rewrite orb_true_r. }
    by rewrite Hb.
Qed.

Lemma X_apply_decode_errors_witness :
  Apply NewMemStore (Some (JObj [("op", JNum 1); ("Key", JStr "a")])) =
    (NewMemStore, Some ErrJSONType).
Proof.
  apply (proj2 (proj2 (proj2 (X_apply_decode_errors NewMemStore)))
           [("op", JNum 1); ("Key", JStr "a")] "op" (JNum 1)); [by left | reflexivity | discriminate..].
Defined.

Lemma fold_eq_congr (a b c : string) :
  fold_eq a b = true -> fold_eq a c = fold_eq b c.
Proof. unfold fold_eq. intros H. apply String.eqb_eq in H. rewrite H. reflexivity. Qed.

(** [Apply] matches the member names of an entry to [Op], [Key] and
    [Value] as [encoding/json] folds them (any letter case, and the
    KELVIN SIGN for k): an entry written with other spellings of the
    names is applied as the canonical one. *)
Theorem X_apply_member_names_fold_case (m : MemStore) (n1 n2 n3 op k v : string) :
  fold_eq n1 "Op" = true -> fold_eq n2 "Key" = true -> fold_eq n3 "Value" = true ->
  Apply m (Some (JObj [(n1, JStr op); (n2, JStr k); (n3, JStr v)])) =
    Apply m (Some (marshal_RaftCommand {| Op := op; Key := k; Value := v |})).
Proof.
  intros H1 H2 H3. unfold Apply, unmarshal_RaftCommand, decode_string_field.
  cbn [fold_left].
  rewrite !(fold_eq_congr _ _ _ H1), !(fold_eq_congr _ _ _ H2), !(fold_eq_congr _ _ _ H3).
  reflexivity.
Qed.

Lemma X_apply_member_names_fold_case_witness :
  Apply NewMemStore (Some (JObj [("op", JStr "set"); ("KEY", JStr "a"); ("value", JStr "1")])) =
    Apply NewMemStore (set_entry "a" "1").
Proof. apply X_apply_member_names_fold_case; reflexivity. Defined.

(** [RaftStore]: when the consensus engine accepts a proposal, [Get] on
    the local store reads it back (other keys unchanged); when it
    rejects it, [Set]/[Delete] return the engine's error and the store is
    left as it was. *)
Theorem X_raftstore_propose (rs : RaftStore) (k k' v : string) :
  (rs_raft rs (set_entry k v) = None ->
   snd (RaftStore_Set rs k v) = None /\
   RaftStore_Get (fst (RaftStore_Set rs k v)) k' =
     (if String.eqb k k' then (v, true) else RaftStore_Get rs k')) /\
  (rs_raft rs (delete_entry k) = None ->
   snd (RaftStore_Delete rs k) = None /\
   RaftStore_Get (fst (RaftStore_Delete rs k)) k' =
     (if String.eqb k k' then ("", false) else RaftStore_Get rs k')) /\
  (forall e, rs_raft rs (set_entry k v) = Some e -> RaftStore_Set rs k v = (rs, Some e)) /\
  (forall e, rs_raft rs (delete_entry k) = Some e -> RaftStore_Delete rs k = (rs, Some e)).
Proof.
  unfold RaftStore_Set, RaftStore_Delete, RaftStore_propose, RaftStore_Get.
  split; [|split; [|split]]; intros; rewrite ?H; try done;
    [rewrite Apply_set_entry | rewrite Apply_delete_entry];
    unfold MemStore_Get; cbn; (split; [done|]);
    destruct (String.eqb_spec k k') as [->|Hne];
    rewrite ?lookup_insert_eq, ?lookup_delete_eq, ?lookup_insert_ne, ?lookup_delete_ne; done.
Qed.

Definition accepting_raft (m : MemStore) : RaftStore :=
  {| rs_store := m; rs_raft := fun _ => None |}.

Lemma X_raftstore_propose_witness :
  RaftStore_Get (fst (RaftStore_Set (accepting_raft NewMemStore) "a" "1")) "a" = ("1", true).
Proof. apply (proj1 (X_raftstore_propose (accepting_raft NewMemStore) "a" "a" "1") eq_refl). Defined.

Definition set_req (k v : string) : Request :=
  {| method := "POST"; query_key := ""; body := Some (JObj [("key", JStr k); ("value", JStr v)]) |}.
Definition delete_req (k : string) : Request :=
  {| method := "POST"; query_key := ""; body := Some (JObj [("key", JStr k)]) |}.
Definition get_req (k : string) : Request := {| method := "GET"; query_key := k; body := None |}.

(** On the leader, over a [RaftStore] whose engine commits the entry:
    [POST /set] answers 204 and a following [GET /get] answers 200 with
    the value; [POST /delete] answers 204 and a following [GET /get]
    answers 404 "Key not found". *)
Theorem X_http_roundtrip (s : Server RaftStore) (env : Env) (k v : string) :
  not_leader s = false -> k <> "" ->
  (rs_raft (Store s) (set_entry k v) = None ->
   fst (handleSet s env (set_req k v)) = {| status := 204; resp_body := "" |} /\
   handleGet (snd (handleSet s env (set_req k v))) env (get_req k) =
     {| status := 200; resp_body := v |}) /\
  (rs_raft (Store s) (delete_entry k) = None ->
   fst (handleDelete s env (delete_req k)) = {| status := 204; resp_body := "" |} /\
   handleGet (snd (handleDelete s env (delete_req k))) env (get_req k) =
     http_Error "Key not found" StatusNotFound).
Proof.
  intros Hl Hk. apply String.eqb_neq in Hk.
  destruct s as [st [[]|]]; cbn in Hl; try discriminate;
  (split; intros Hr; cbn in Hr;
    unfold handleSet, handleDelete; simpl; rewrite Hk;
    simpl; unfold RaftStore_Set, RaftStore_Delete, RaftStore_propose; rewrite Hr;
    [rewrite Apply_set_entry | rewrite Apply_delete_entry]; simpl;
    (split; [reflexivity|]);
    unfold handleGet; simpl; rewrite Hk; unfold RaftStore_Get, MemStore_Get; simpl;
    rewrite ?lookup_insert_eq, ?lookup_delete_eq; reflexivity).
Qed.

Definition raft_leader_node : Server RaftStore :=
  {| Store := accepting_raft NewMemStore; Raft := Some Leader |}.

Lemma X_http_roundtrip_witness :
  handleGet (snd (handleSet raft_leader_node no_leader_env (set_req "a" "1")))
    no_leader_env (get_req "a") = {| status := 200; resp_body := "1" |}.
Proof.
  apply (proj1 (X_http_roundtrip raft_leader_node no_leader_env "a" "1" eq_refl
                  ltac:(discriminate)) eq_refl).
Defined.

(** [POST /set] on the leader with a body that names only the key
    (member name in any spelling that folds to "key") stores the key with
    the empty value:
    [value] is optional and defaults to "". *)
Theorem X_http_set_value_optional (s : Server MemStore) (env : Env) (n k : string) :
  not_leader s = false -> k <> "" -> fold_eq n "key" = true ->
  handleSet s env {| method := "POST"; query_key := ""; body := Some (JObj [(n, JStr k)]) |} =
    ({| status := 204; resp_body := "" |},
     {| Store := {| data := <[k := ""]> (data (Store s)) |}; Raft := Raft s |}).
Proof.
  intros Hl Hk Hn. apply String.eqb_neq in Hk.
  unfold handleSet. simpl. rewrite Hl.
  unfold decode_set_request, decode_string_field. cbn [fold_left].
  rewrite !(fold_eq_congr _ _ _ Hn). simpl. rewrite Hk. reflexivity.
Qed.

Lemma X_http_set_value_optional_witness :
  handleSet leader_node no_leader_env
    {| method := "POST"; query_key := ""; body := Some (JObj [("Key", JStr "a")]) |} =
  ({| status := 204; resp_body := "" |},
   {| Store := {| data := <[ "a" := "" ]> ∅ |}; Raft := Some Leader |}).
Proof. apply (X_http_set_value_optional leader_node no_leader_env "Key" "a"); [reflexivity | discriminate | reflexivity]. Defined.

(** A request with the wrong method is answered 405 "Method not allowed"
    on every node, whatever its role, before any leader lookup or
    forwarding, and the store is not touched. *)
Theorem X_http_method_not_allowed {S} `{KVStore S} (s : Server S) (env : Env) (r : Request) :
  (method r <> "GET" ->
   handleGet s env r = http_Error "Method not allowed" StatusMethodNotAllowed) /\
  (method r <> "POST" ->
   handleSet s env r = (http_Error "Method not allowed" StatusMethodNotAllowed, s) /\
   handleDelete s env r = (http_Error "Method not allowed" StatusMethodNotAllowed, s)).
Proof.
  split; intros Hm; apply String.eqb_neq in Hm;
    unfold handleGet, handleSet, handleDelete; rewrite Hm; done.
Qed.

Lemma X_http_method_not_allowed_witness :
  status (handleGet follower forwarding_env {| method := "POST"; query_key := "a"; body := None |}) = 405.
Proof.
  rewrite (proj1 (X_http_method_not_allowed follower forwarding_env
                    {| method := "POST"; query_key := "a"; body := None |}) ltac:(discriminate)).
  reflexivity.
Defined.

(** On the leader, malformed requests are answered 400 and leave the
    store untouched: [GET /get] without a key ("Missing key parameter"),
    a [/set] or [/delete] body that does not decode ("Invalid JSON"),
    and a decoded body whose key is empty or absent ("Missing key field").
    A [null] body decodes to an empty key. Member names match as
    [encoding/json] folds them: a key member spelled with U+212A KELVIN
    SIGN is the key. *)
Theorem X_http_leader_validation {S} `{KVStore S} (s : Server S) (env : Env) (r : Request) :
  not_leader s = false ->
  (method r = "GET" -> query_key r = "" ->
   handleGet s env r = http_Error "Missing key parameter" StatusBadRequest) /\
  (method r = "POST" ->
   (decode_set_request (body r) = None ->
    handleSet s env r = (http_Error "Invalid JSON" StatusBadRequest, s)) /\
   (forall v, decode_set_request (body r) = Some ("", v) ->
    handleSet s env r = (http_Error "Missing key field" StatusBadRequest, s)) /\
   (decode_delete_request (body r) = None ->
    handleDelete s env r = (http_Error "Invalid JSON" StatusBadRequest, s)) /\
   (decode_delete_request (body r) = Some "" ->
    handleDelete s env r = (http_Error "Missing key field" StatusBadRequest, s))) /\
  decode_set_request (Some JNull) = Some ("", "") /\ decode_delete_request (Some JNull) = Some "" /\
  decode_set_request (Some (JObj [(String "226"%char (String "132"%char (String "170"%char "ey")),
                                   JStr "k"); ("value", JStr "2")])) = Some ("k", "2").
Proof.
  intros Hl. split; [|split; [|split; [|split]; reflexivity]].
  - intros Hm Hk. unfold handleGet. rewrite Hm, Hl, Hk. reflexivity.
  - intros Hm. unfold handleSet, handleDelete. rewrite Hm, Hl. cbn.
    repeat split; intros; rewrite ?H0; reflexivity.
Qed.

Lemma X_http_leader_validation_witness :
  handleSet leader_node no_leader_env set_bad_json =
    (http_Error "Invalid JSON" StatusBadRequest, leader_node).
Proof.
  apply (proj1 (proj1 (proj2 (X_http_leader_validation leader_node no_leader_env set_bad_json
                                eq_refl)) eq_refl) eq_refl).
Defined.

(** The RPC surface: an empty key is answered [InvalidArgument] on every
    node without touching the store; on the leader a store error is
    answered [Internal] and success with [success = true]. *)
Theorem X_grpc_set_delete {S} `{KVStore S} (s : Server S) (lg : string) (fwd : GrpcReply)
    (k v : string) :
  GRPCServer_Set s lg fwd "" v = (GrpcFail InvalidArgument "key is required", s) /\
  GRPCServer_Delete s lg fwd "" = (GrpcFail InvalidArgument "key is required", s) /\
  (not_leader s = false -> k <> "" ->
   fst (GRPCServer_Set s lg fwd k v) =
     match snd (kv_Set (Store s) k v) with
     | Some _ => GrpcFail Internal "failed to set key"
     | None => SuccessReply true
     end /\
   fst (GRPCServer_Delete s lg fwd k) =
     match snd (kv_Delete (Store s) k) with
     | Some _ => GrpcFail Internal "failed to delete key"
     | None => SuccessReply true
     end).
Proof.
  split; [reflexivity|]. split; [reflexivity|].
  intros Hl Hk. apply String.eqb_neq in Hk.
  unfold GRPCServer_Set, GRPCServer_Delete. rewrite Hk, Hl.
  destruct (kv_Set (Store s) k v) as [? []], (kv_Delete (Store s) k) as [? []]; done.
Qed.

Lemma X_grpc_set_delete_witness :
  fst (GRPCServer_Set (rejecting_leader ErrNotLeader) "" (SuccessReply true) "a" "1") =
    GrpcFail Internal "failed to set key".
Proof.
  apply (proj1 (proj2 (proj2 (X_grpc_set_delete (rejecting_leader ErrNotLeader) ""
     (SuccessReply true) "a" "1")) eq_refl ltac:(discriminate))).
Defined.

Lemma count_ops_cons (p : iop -> bool) (o : iop) (ops : list iop) :
  count_ops p (o :: ops) = (if p o then 1 else 0) + count_ops p ops.
Proof. unfold count_ops. cbn. destruct (p o); cbn [List.length]; lia. Qed.

Lemma count_ops_nonneg (p : iop -> bool) (ops : list iop) : 0 <= count_ops p ops.
Proof. unfold count_ops. lia. Qed.

Lemma run_iops_cons {S} `{KVStore S} (s : InstrumentedStore S) (o : iop) (ops : list iop) :
  run_iops s (o :: ops) = run_iops (run_iop s o) ops.
Proof. reflexivity. Qed.

(** The counters after one call: the class of the call is incremented
    (modulo 2^64), its latency grows by the elapsed time, the others
    are unchanged. *)
Lemma metrics_run_iop {S} `{KVStore S} (s : InstrumentedStore S) (o : iop) :
  metrics (run_iop s o) =
    match o with
    | IGet a b _ =>
        {| GetCount := add_u64 (GetCount (metrics s)) 1; SetCount := SetCount (metrics s);
           DeleteCount := DeleteCount (metrics s);
           GetLatencyNs := add_u64 (GetLatencyNs (metrics s)) (to_uint64 (time_sub b a));
           SetLatencyNs := SetLatencyNs (metrics s);
           DeleteLatencyNs := DeleteLatencyNs (metrics s) |}
    | ISet a b _ _ =>
        {| GetCount := GetCount (metrics s); SetCount := add_u64 (SetCount (metrics s)) 1;
           DeleteCount := DeleteCount (metrics s);
           GetLatencyNs := GetLatencyNs (metrics s);
           SetLatencyNs := add_u64 (SetLatencyNs (metrics s)) (to_uint64 (time_sub b a));
           DeleteLatencyNs := DeleteLatencyNs (metrics s) |}
    | IDelete a b _ =>
        {| GetCount := GetCount (metrics s); SetCount := SetCount (metrics s);
           DeleteCount := add_u64 (DeleteCount (metrics s)) 1;
           GetLatencyNs := GetLatencyNs (metrics s); SetLatencyNs := SetLatencyNs (metrics s);
           DeleteLatencyNs := add_u64 (DeleteLatencyNs (metrics s)) (to_uint64 (time_sub b a)) |}
    end.
Proof.
  destruct o as [a b k|a b k v|a b k]; cbn [run_iop].
  - unfold Instrumented_Get. destruct (kv_Get (inner s) k). reflexivity.
  - unfold Instrumented_Set. destruct (kv_Set (inner s) k v). reflexivity.
  - unfold Instrumented_Delete. destruct (kv_Delete (inner s) k). reflexivity.
Qed.

Lemma add_u64_1 (a c : Z) : (add_u64 a 1 + c) mod two64 = (a + (1 + c)) mod two64.
Proof.
  unfold add_u64, to_uint64. rewrite Z.add_mod_idemp_l by (unfold two64; lia).
  f_equal. lia.
Qed.

Definition counts_in_range (m : Metrics) : Prop :=
  0 <= GetCount m < two64 /\ 0 <= SetCount m < two64 /\ 0 <= DeleteCount m < two64.

Lemma add_u64_range (a b : Z) : 0 <= add_u64 a b < two64.
Proof. unfold add_u64, to_uint64. apply Z.mod_pos_bound. unfold two64. lia. Qed.

Lemma run_iops_counts {S} `{KVStore S} (ops : list iop) (s : InstrumentedStore S) :
  counts_in_range (metrics s) ->
  GetCount (metrics (run_iops s ops)) = (GetCount (metrics s) + count_ops is_get ops) mod two64 /\
  SetCount (metrics (run_iops s ops)) = (SetCount (metrics s) + count_ops is_set ops) mod two64 /\
  DeleteCount (metrics (run_iops s ops)) =
    (DeleteCount (metrics s) + count_ops is_delete ops) mod two64.
Proof.
  revert s. induction ops as [|o ops IH]; intros s (Hg & Hs & Hd).
  - unfold count_ops. cbn [List.filter List.length Z.of_nat run_iops fold_left].
    rewrite !Z.add_0_r, !Z.mod_small; auto.
  - rewrite run_iops_cons, !count_ops_cons.
    assert (Hr : counts_in_range (metrics (run_iop s o))).
    { rewrite metrics_run_iop. unfold counts_in_range.
      destruct o; cbn; repeat split; try apply add_u64_range; lia. }
    destruct (IH _ Hr) as (IHg & IHs & IHd). rewrite IHg, IHs, IHd.
    rewrite metrics_run_iop. destruct o; cbn [is_get is_set is_delete GetCount SetCount
      DeleteCount]; rewrite ?add_u64_1;
      repeat split; first [reflexivity | f_equal; lia].
Qed.

(** Each operation counter is the number of calls of its class made on
    the wrapper since it was created or reset, modulo 2^64; right after
    [ResetMetrics] the snapshot is all zeros and the wrapped store is the
    same. *)
Theorem X_metrics_counts {S} `{KVStore S} (s : InstrumentedStore S) (ops : list iop) :
  GetCount (metrics (run_iops (ResetMetrics s) ops)) = count_ops is_get ops mod two64 /\
  SetCount (metrics (run_iops (ResetMetrics s) ops)) = count_ops is_set ops mod two64 /\
  DeleteCount (metrics (run_iops (ResetMetrics s) ops)) = count_ops is_delete ops mod two64 /\
  inner (ResetMetrics s) = inner s /\
  GetMetrics (ResetMetrics s) =
    {| snap_GetCount := 0; snap_SetCount := 0; snap_DeleteCount := 0;
       GetAvgLatency := 0; SetAvgLatency := 0; DeleteAvgLatency := 0 |}.
Proof.
  assert (Hr : counts_in_range (metrics (ResetMetrics s))).
  { unfold counts_in_range. cbn. unfold two64. lia. }
  destruct (run_iops_counts ops _ Hr) as (Hg & Hs & Hd).
  rewrite Hg, Hs, Hd. cbn [ResetMetrics metrics zero_metrics GetCount SetCount DeleteCount].
  repeat split.
Qed.

Lemma time_sub_ordered (a b : Z) : a <= b -> 0 <= time_sub b a <= two63 - 1.
Proof. intros Hab. pose proof two63_pos. unfold time_sub. lia. Qed.

Lemma cls_ok_step (lat cnt e : Z) :
  cls_ok lat cnt -> 0 <= e <= two63 - 1 -> cnt + 1 < two64 ->
  cls_ok (add_u64 lat (to_uint64 e)) (add_u64 cnt 1) /\ add_u64 cnt 1 = cnt + 1.
Proof.
  intros (Hc & Hl & Hle) He Hn. pose proof two64_two63 as E. pose proof two63_pos.
  assert (Hu : to_uint64 e = e) by (unfold to_uint64; apply Z.mod_small; lia).
  assert (Hc1 : add_u64 cnt 1 = cnt + 1) by (unfold add_u64, to_uint64; apply Z.mod_small; lia).
  rewrite Hu, Hc1. split; [|reflexivity].
  unfold cls_ok, add_u64, to_uint64. split; [lia|]. split.
  - apply Z.mod_pos_bound. lia.
  - transitivity (lat + e); [apply Z.mod_le; lia | nia].
Qed.

Lemma metrics_ok_step {S} `{KVStore S} (s : InstrumentedStore S) (o : iop) :
  metrics_ok (metrics s) -> clock_ok o -> count_sum (metrics s) + 1 < two64 ->
  metrics_ok (metrics (run_iop s o)) /\ count_sum (metrics (run_iop s o)) = count_sum (metrics s) + 1.
Proof.
  intros (Hg & Hs & Hd) Hclk Hsum. rewrite metrics_run_iop.
  assert (0 <= GetCount (metrics s)) by apply Hg.
  assert (0 <= SetCount (metrics s)) by apply Hs.
  assert (0 <= DeleteCount (metrics s)) by apply Hd.
  unfold count_sum in *.
  destruct o as [a b k|a b k v|a b k]; cbn in Hclk; pose proof (time_sub_ordered _ _ Hclk) as He.
  - assert (Hn : GetCount (metrics s) + 1 < two64) by lia.
    destruct (cls_ok_step _ _ _ Hg He Hn) as [Hok Hc].
    unfold metrics_ok; cbn. rewrite Hc in Hok |- *.
    split; [split; [|split]; assumption | lia].
  - assert (Hn : SetCount (metrics s) + 1 < two64) by lia.
    destruct (cls_ok_step _ _ _ Hs He Hn) as [Hok Hc].
    unfold metrics_ok; cbn. rewrite Hc in Hok |- *.
    split; [split; [|split]; assumption | lia].
  - assert (Hn : DeleteCount (metrics s) + 1 < two64) by lia.
    destruct (cls_ok_step _ _ _ Hd He Hn) as [Hok Hc].
    unfold metrics_ok; cbn. rewrite Hc in Hok |- *.
    split; [split; [|split]; assumption | lia].
Qed.

Lemma metrics_ok_run {S} `{KVStore S} (ops : list iop) (s : InstrumentedStore S) :
  metrics_ok (metrics s) -> Forall clock_ok ops ->
  count_sum (metrics s) + Z.of_nat (List.length ops) < two64 ->
  metrics_ok (metrics (run_iops s ops)).
Proof.
  revert s. induction ops as [|o ops IH]; intros s Hok Hall Hsum; [exact Hok|].
  inversion Hall as [|? ? Ho Hops]; subst.
  rewrite run_iops_cons. cbn [List.length] in Hsum.
  destruct (metrics_ok_step s o Hok Ho ltac:(lia)) as [Hok' Hs'].
  apply IH; [exact Hok' | exact Hops | lia].
Qed.

Lemma avgLatency_ok (lat cnt : Z) :
  cls_ok lat cnt -> lat < two64 -> avgLatency lat cnt = lat / cnt /\ 0 <= lat / cnt <= two63 - 1.
Proof.
  intros (Hc & Hl & Hle) Hlt. pose proof two64_two63. pose proof two63_pos.
  unfold avgLatency, to_int64.
  destruct (Z.eqb_spec cnt 0) as [->|Hn].
  - assert (lat = 0) as -> by lia. rewrite Zdiv_0_l. split; [reflexivity | lia].
  - assert (Hq : 0 <= lat / cnt <= two63 - 1).
    { split; [apply Z.div_pos; lia|]. apply Z.div_le_upper_bound; lia. }
    rewrite Z.mod_small by lia.
    destruct (Z.ltb_spec (lat / cnt) two63); [split; [reflexivity | exact Hq] | lia].
Qed.

(** With ordered clock readings for every call and fewer than 2^64 calls
    since the wrapper was created or reset, every average of the snapshot
    is exactly the cumulative latency divided by the count (0 for an
    unused class) and lies in [0, 2^63 - 1]: the signed conversion never
    wraps. *)
Theorem X_metrics_avg_exact {S} `{KVStore S} (s : InstrumentedStore S) (ops : list iop) :
  Forall clock_ok ops -> Z.of_nat (List.length ops) < two64 ->
  let m := metrics (run_iops (ResetMetrics s) ops) in
  GetAvgLatency (GetMetrics (run_iops (ResetMetrics s) ops)) = GetLatencyNs m / GetCount m /\
  SetAvgLatency (GetMetrics (run_iops (ResetMetrics s) ops)) = SetLatencyNs m / SetCount m /\
  DeleteAvgLatency (GetMetrics (run_iops (ResetMetrics s) ops)) =
    DeleteLatencyNs m / DeleteCount m /\
  0 <= GetLatencyNs m / GetCount m <= two63 - 1 /\
  0 <= SetLatencyNs m / SetCount m <= two63 - 1 /\
  0 <= DeleteLatencyNs m / DeleteCount m <= two63 - 1.
Proof.
  intros Hall Hlen m.
  assert (Hok : metrics_ok m).
  { apply metrics_ok_run; [|exact Hall|].
    - unfold metrics_ok, cls_ok; cbn. lia.
    - unfold count_sum; cbn. lia. }
  assert (Hin : 0 <= GetLatencyNs m < two64 /\ 0 <= SetLatencyNs m < two64 /\
                0 <= DeleteLatencyNs m < two64).
  { subst m. destruct ops as [|o ops].
    - cbn. unfold two64. lia.
    - rewrite run_iops_cons.
      assert (Hrange : forall (s' : InstrumentedStore S) l,
                 0 <= GetLatencyNs (metrics s') < two64 -> 0 <= SetLatencyNs (metrics s') < two64 ->
                 0 <= DeleteLatencyNs (metrics s') < two64 ->
                 0 <= GetLatencyNs (metrics (run_iops s' l)) < two64 /\
                 0 <= SetLatencyNs (metrics (run_iops s' l)) < two64 /\
                 0 <= DeleteLatencyNs (metrics (run_iops s' l)) < two64).
      { intros s' l. revert s'. induction l as [|o' l IHl]; intros s' H1 H2 H3; [auto|].
        rewrite run_iops_cons. apply IHl; rewrite metrics_run_iop;
          destruct o'; cbn; first [apply add_u64_range | assumption]. }
      apply Hrange; rewrite metrics_run_iop; destruct o; cbn;
        first [apply add_u64_range | unfold two64; lia]. }
  destruct Hok as (Hg & Hs & Hd). destruct Hin as (Ig & Is & Id).
  destruct (avgLatency_ok _ _ Hg ltac:(lia)) as [Ag Bg].
  destruct (avgLatency_ok _ _ Hs ltac:(lia)) as [As Bs].
  destruct (avgLatency_ok _ _ Hd ltac:(lia)) as [Ad Bd].
  cbn [GetMetrics GetAvgLatency SetAvgLatency DeleteAvgLatency]. fold m.
  rewrite Ag, As, Ad. repeat split; lia.
Qed.

Lemma X_metrics_avg_exact_witness :
  GetAvgLatency (GetMetrics (run_iops (ResetMetrics (NewInstrumentedStore NewMemStore))
                               [IGet 0 10 "a"; ISet 5 9 "a" "1"; IGet 20 40 "a"])) = 15.
Proof.
  destruct (X_metrics_avg_exact (NewInstrumentedStore NewMemStore)
              [IGet 0 10 "a"; ISet 5 9 "a" "1"; IGet 20 40 "a"]) as [H _].
  - repeat constructor; cbn; lia.
  - cbn. unfold two64. lia.
  - rewrite H. reflexivity.
Defined.

(* ------------------------------------------------------------------ *)
(** *** The registry's join requests and sweeper *)

Lemma since_gt_join_ttl (now t : Z) :
  (since now t >? joinRequestTTL) = (now - t >? joinRequestTTL).
Proof.
  unfold since, time_sub, joinRequestTTL.
  assert (two63 = 9223372036854775808) by reflexivity.
  destruct (Z.gtb_spec (now - t) (30 * 1000000000));
    destruct (Z.gtb_spec (Z.max (- two63) (Z.min (two63 - 1) (now - t))) (30 * 1000000000));
    lia.
Qed.

(** [POST /join-requests] is an upsert keyed by the request's id: a body
    that does not decode is answered 400 and changes nothing; a decoded
    request is answered 204 and stored under its id stamped with the
    current time (whatever [started_at] the client sent), replacing an
    earlier request with that id, leaving the other entries and the
    leader slot alone. Re-posting refreshes the stamp: two posts with the
    same id leave exactly what the later one alone would. *)
Theorem X_mandi_join_upsert :
  (forall (s : MandiStore) (msg : string) (now : Z),
    postJoinRequest s (inr msg) now = (StatusBadRequest, s)) /\
  (forall (s : MandiStore) (jr : JoinRequest) (now : Z) (id : string),
    fst (postJoinRequest s (inl jr) now) = StatusNoContent /\
    leader (snd (postJoinRequest s (inl jr) now)) = leader s /\
    joinRequests (snd (postJoinRequest s (inl jr) now)) !! id =
      if String.eqb id (jr_ID jr)
      then Some {| jr_ID := jr_ID jr; jr_Addr := jr_Addr jr; StartedAt := now |}
      else joinRequests s !! id) /\
  (forall (s : MandiStore) (jr1 jr2 : JoinRequest) (t1 t2 : Z),
    jr_ID jr1 = jr_ID jr2 ->
    snd (postJoinRequest (snd (postJoinRequest s (inl jr1) t1)) (inl jr2) t2) =
    snd (postJoinRequest s (inl jr2) t2)).
Proof.
  split; [reflexivity|]. split.
  - intros s jr now id. cbn. split; [reflexivity|]. split; [reflexivity|].
    destruct (String.eqb_spec id (jr_ID jr)) as [->|Hne].
    + apply lookup_insert_eq.
    + apply lookup_insert_ne. congruence.
  - intros s jr1 jr2 t1 t2 Hid. cbn. rewrite Hid, insert_insert_eq. reflexivity.
Qed.

Lemma X_mandi_join_upsert_witness :
  snd (postJoinRequest (snd (postJoinRequest NewStore
         (inl {| jr_ID := "n2"; jr_Addr := "h2:7000"; StartedAt := 0 |}) 5))
         (inl {| jr_ID := "n2"; jr_Addr := "h2:7001"; StartedAt := 0 |}) 9) =
  snd (postJoinRequest NewStore (inl {| jr_ID := "n2"; jr_Addr := "h2:7001"; StartedAt := 0 |}) 9).
Proof. destruct X_mandi_join_upsert as (_ & _ & H). apply H. reflexivity. Defined.

(** [DELETE /join-requests?id=...]: an empty or missing id is answered
    400 and changes nothing; any other id is answered 204, whether or not
    a request is stored under it, and removes only that entry, so a
    second delete is a no-op. *)
Theorem X_mandi_join_delete :
  (forall s : MandiStore, deleteJoinRequest s "" = (StatusBadRequest, s)) /\
  (forall (s : MandiStore) (id : string), id <> "" ->
    fst (deleteJoinRequest s id) = StatusNoContent /\
    leader (snd (deleteJoinRequest s id)) = leader s /\
    joinRequests (snd (deleteJoinRequest s id)) !! id = None /\
    (forall id', id' <> id ->
       joinRequests (snd (deleteJoinRequest s id)) !! id' = joinRequests s !! id') /\
    deleteJoinRequest (snd (deleteJoinRequest s id)) id = deleteJoinRequest s id).
Proof.
  split; [reflexivity|]. intros s id Hid.
  unfold deleteJoinRequest.
  destruct (String.eqb_spec id "") as [E|_]; [contradiction|]. cbn.
  split; [reflexivity|]. split; [reflexivity|]. split; [apply lookup_delete_eq|]. split.
  - intros id' Hne. apply lookup_delete_ne. congruence.
  - rewrite delete_delete_eq. reflexivity.
Qed.

Lemma X_mandi_join_delete_witness :
  deleteJoinRequest (snd (deleteJoinRequest NewStore "n2")) "n2" = deleteJoinRequest NewStore "n2".
Proof.
  destruct X_mandi_join_delete as [_ H].
  apply (H NewStore "n2"). discriminate.
Defined.

(** [GET /join-requests] lists every stored request, whatever its age:
    entries older than [joinRequestTTL] are still listed until the
    sweeper removes them. An empty map is encoded as [null] (the nil
    slice), never as an empty array. *)
Theorem X_mandi_join_list :
  (forall s : MandiStore, listJoinRequests s = None <-> joinRequests s = ∅) /\
  (forall (s : MandiStore) (l : list JoinRequest) (j : JoinRequest),
    listJoinRequests s = Some l ->
    (In j l <-> exists id, joinRequests s !! id = Some j)).
Proof.
  split.
  - intros s. unfold listJoinRequests. split.
    + destruct (map_to_list (joinRequests s)) eqn:E; [|discriminate].
      intros _. apply map_to_list_empty_iff. exact E.
    + intros ->. rewrite map_to_list_empty. reflexivity.
  - intros s l j Hl.
    assert (l = map snd (map_to_list (joinRequests s))) as ->.
    { unfold listJoinRequests in Hl.
      destruct (map_to_list (joinRequests s)); [discriminate | congruence]. }
    rewrite in_map_iff. split.
    + intros [[id j'] [Hj Hin]]. cbn in Hj; subst j'. exists id.
      apply elem_of_map_to_list. apply list_elem_of_In. exact Hin.
    + intros [id Hid]. exists (id, j). split; [reflexivity|].
      apply list_elem_of_In. apply elem_of_map_to_list. exact Hid.
Qed.

(** One sweep of [cleanupLoop] at the instant [now] keeps exactly the
    join requests at most [joinRequestTTL] (30 s) old and drops the
    leader record once it is more than [leaderTTL] (10 s) old, keeping a
    fresher one. [GET /leader] at that same instant cannot tell whether
    the sweep ran, and a second sweep at the same instant changes
    nothing. *)
Theorem X_mandi_cleanup :
  (forall (s : MandiStore) (now : Z) (id : string) (j : JoinRequest),
    joinRequests (cleanup_tick s now) !! id = Some j <->
    joinRequests s !! id = Some j /\ now - StartedAt j <= joinRequestTTL) /\
  (forall (s : MandiStore) (now : Z),
    leader (cleanup_tick s now) =
      match leader s with
      | Some l => if now - UpdatedAt l <=? leaderTTL then Some l else None
      | None => None
      end) /\
  (forall (s : MandiStore) (now : Z), getLeader (cleanup_tick s now) now = getLeader s now) /\
  (forall (s : MandiStore) (now : Z), cleanup_tick (cleanup_tick s now) now = cleanup_tick s now).
Proof.
  split; [|split; [|split]].
  - intros s now id j. cbn. rewrite map_lookup_filter_Some. cbn.
    rewrite since_gt_join_ttl.
    split; intros [H1 H2]; split; try exact H1.
    + destruct (Z.gtb_spec (now - StartedAt j) joinRequestTTL); [discriminate | lia].
    + destruct (Z.gtb_spec (now - StartedAt j) joinRequestTTL); [lia | reflexivity].
  - intros s now. cbn. destruct (leader s) as [l|]; [|reflexivity].
    rewrite since_gt_ttl.
    destruct (Z.gtb_spec (now - UpdatedAt l) leaderTTL);
      destruct (Z.leb_spec (now - UpdatedAt l) leaderTTL); first [reflexivity | lia].
  - intros s now. unfold getLeader, cleanup_tick. cbn.
    destruct (leader s) as [l|]; [|reflexivity].
    destruct (since now (UpdatedAt l) >? leaderTTL) eqn:E; [reflexivity|].
    cbn. rewrite E. reflexivity.
  - intros s now. unfold cleanup_tick. cbn. f_equal.
    + destruct (leader s) as [l|]; [|reflexivity].
      destruct (since now (UpdatedAt l) >? leaderTTL) eqn:E; [reflexivity|].
      rewrite E. reflexivity.
    + apply map_filter_filter_l. intros id j _ H. exact H.
Qed.

(* ------------------------------------------------------------------ *)
(** *** The leader's registration and join drain *)

Lemma host_before_colon_app (h p : string) :
  colon_free h = true -> host_before_colon (h ++ String ":" p) = Some h.
Proof.
  induction h as [|c h IH]; simpl; [reflexivity|].
  intros Hc. apply andb_prop in Hc as [Hc Hh].
  destruct (Ascii.eqb c ":"); [discriminate|]. rewrite IH by exact Hh. reflexivity.
Qed.

Lemma host_before_colon_free (s : string) :
  colon_free s = true -> host_before_colon s = None.
Proof.
  induction s as [|c s IH]; cbn; [reflexivity|].
  intros Hc. apply andb_prop in Hc as [Hc Hs].
  destruct (Ascii.eqb c ":"); [discriminate|]. rewrite IH by exact Hs. reflexivity.
Qed.

(** [registerLeader] completes a wildcard listen address (one that
    starts with ':') with the host part of the raft address, the text
    before its first ':': a node whose raft address is [h:rp] (no ':' in
    [h]) and whose HTTP and gRPC addresses are [:hp] and [:gp] publishes
    [h:hp] and [h:gp]. A raft address with no ':' gives the host
    "localhost". A raft address that is itself a wildcard ([:rp]) gives
    the empty host, so the published addresses stay wildcards. Addresses
    that do not start with ':' are published unchanged. *)
Theorem X_register_leader_addrs :
  (forall nodeID h rp hp gp term now, colon_free h = true ->
    let i := registerLeader_info nodeID (h ++ String ":" rp) (String ":" hp) (String ":" gp) term now in
    HTTPAddr i = h ++ String ":" hp /\ GRPCAddr i = h ++ String ":" gp) /\
  (forall nodeID addr hp gp term now, colon_free addr = true ->
    let i := registerLeader_info nodeID addr (String ":" hp) (String ":" gp) term now in
    HTTPAddr i = "localhost" ++ String ":" hp /\ GRPCAddr i = "localhost" ++ String ":" gp) /\
  (forall nodeID rp hp gp term now,
    let i := registerLeader_info nodeID (String ":" rp) (String ":" hp) (String ":" gp) term now in
    HTTPAddr i = String ":" hp /\ GRPCAddr i = String ":" gp) /\
  (forall nodeID addr a g term now,
    (forall r, a <> String ":" r) -> (forall r, g <> String ":" r) ->
    let i := registerLeader_info nodeID addr a g term now in
    HTTPAddr i = a /\ GRPCAddr i = g).
Proof.
  split; [|split; [|split]].
  - intros nodeID h rp hp gp term now Hh.
    unfold registerLeader_info, hostname_of; cbn [HTTPAddr GRPCAddr].
    rewrite host_before_colon_app by exact Hh. split; reflexivity.
  - intros nodeID addr hp gp term now Ha.
    unfold registerLeader_info, hostname_of; cbn [HTTPAddr GRPCAddr].
    rewrite host_before_colon_free by exact Ha. split; reflexivity.
  - intros. split; reflexivity.
  - intros nodeID addr a g term now Ha Hg. cbn.
    assert (Hf : forall x, (forall r, x <> String ":" r) -> full_addr (hostname_of addr) x = x).
    { intros [|c r] Hx; [reflexivity|]. cbn.
      destruct (Ascii.eqb_spec c ":") as [->|]; [|reflexivity]. exfalso. exact (Hx r eq_refl). }
    split; apply Hf; assumption.
Qed.

Lemma X_register_leader_addrs_witness :
  HTTPAddr (registerLeader_info "node1" "pyazdb-node1:12000" ":8080" ":9090" 3 0) =
  "pyazdb-node1:8080".
Proof.
  destruct X_register_leader_addrs as [H _].
  apply (H "node1" "pyazdb-node1" "12000" "8080" "9090" 3 0). reflexivity.
Defined.

Lemma drain_joins_app_in (nodeID : string) (nv v : JoinRequest -> bool)
    (j : JoinRequest) (js : list JoinRequest) (a : MemberAction) :
  In a (drain_joins nodeID nv v (j :: js)) <->
  (jr_ID j <> nodeID /\
   (a = AddNonvoter (jr_ID j) (jr_Addr j) \/
    (nv j = true /\ a = AddVoter (jr_ID j) (jr_Addr j)) \/
    (nv j = true /\ v j = true /\ a = DeleteJoin (jr_ID j)))) \/
  In a (drain_joins nodeID nv v js).
Proof.
  cbn. destruct (String.eqb_spec (jr_ID j) nodeID) as [E|Hne].
  - split; [right; assumption|]. intros [[Hc _]|H]; [contradiction | exact H].
  - cbn. rewrite in_app_iff.
    destruct (nv j), (v j); cbn; intuition (try congruence; try discriminate).
Qed.

Lemma drain_joins_cons (nodeID : string) (nv v : JoinRequest -> bool)
    (j : JoinRequest) (js : list JoinRequest) :
  drain_joins nodeID nv v (j :: js) =
    ((if String.eqb (jr_ID j) nodeID then []
     else AddNonvoter (jr_ID j) (jr_Addr j) ::
          (if nv j then
             AddVoter (jr_ID j) (jr_Addr j) :: (if v j then [DeleteJoin (jr_ID j)] else [])
           else [])) ++ drain_joins nodeID nv v js)%list.
Proof. cbn. destruct (String.eqb (jr_ID j) nodeID); reflexivity. Qed.

Lemma infix_app_l {A} (P R pat : list A) :
  (exists l1 l2, R = l1 ++ pat ++ l2)%list -> exists l1 l2, (P ++ R = l1 ++ pat ++ l2)%list.
Proof. intros (l1 & l2 & ->). exists (P ++ l1)%list, l2. by rewrite app_assoc. Qed.

(** One join-drain tick of [runLeaderDuties], as the sequence of calls it
    makes: a join request is deleted exactly when it is not the leader's
    own and both its [AddNonvoter] and its [AddVoter] succeeded, so a
    request whose promotion failed stays listed and is retried on the
    next tick. No call names the leader itself. Every [AddVoter] comes
    right after the [AddNonvoter] of the same server, and every
    [DeleteJoin] right after that pair. *)
Theorem X_join_drain :
  (forall nodeID nv v joins id,
    In (DeleteJoin id) (drain_joins nodeID nv v joins) <->
    exists j, In j joins /\ jr_ID j = id /\ id <> nodeID /\ nv j = true /\ v j = true) /\
  (forall nodeID nv v joins a,
    In a (drain_joins nodeID nv v joins) -> action_id a <> nodeID) /\
  (forall nodeID nv v joins id addr,
    In (AddVoter id addr) (drain_joins nodeID nv v joins) ->
    exists l1 l2, drain_joins nodeID nv v joins =
      (l1 ++ [AddNonvoter id addr; AddVoter id addr] ++ l2)%list) /\
  (forall nodeID nv v joins id,
    In (DeleteJoin id) (drain_joins nodeID nv v joins) ->
    exists addr l1 l2, drain_joins nodeID nv v joins =
      (l1 ++ [AddNonvoter id addr; AddVoter id addr; DeleteJoin id] ++ l2)%list).
Proof.
  split; [|split; [|split]].
  - intros nodeID nv v joins id. induction joins as [|j js IH]; cbn [In].
    + split; [contradiction|]. intros (j & [] & _).
    + rewrite drain_joins_app_in, IH. split.
      * intros [[Hne [H|[[_ H]|(H1 & H2 & H)]]]|(j' & Hin & Hrest)]; try discriminate.
        -- injection H as ->. exists j. auto 6.
        -- exists j'. destruct Hrest as (? & ? & ? & ?). auto 6.
      * intros (j' & [<-|Hin] & Hid & Hne & H1 & H2).
        -- left. subst id. split; [exact Hne|]. right; right. auto.
        -- right. exists j'. auto.
  - intros nodeID nv v joins a. induction joins as [|j js IH]; cbn [In]; [contradiction|].
    rewrite drain_joins_app_in.
    intros [[Hne [->|[[_ ->]|(_ & _ & ->)]]]|H]; cbn; auto.
  - intros nodeID nv v joins id addr. induction joins as [|j js IH]; [intros []|].
    rewrite drain_joins_cons. intros Hin. apply in_app_iff in Hin as [Hin|Hin].
    + destruct (String.eqb (jr_ID j) nodeID); [destruct Hin|].
      destruct (nv j), (v j); cbn in Hin;
        repeat match goal with
               | H : _ \/ _ |- _ => destruct H as [H|H]
               | H : False |- _ => destruct H
               | H : AddVoter _ _ = AddVoter _ _ |- _ => injection H as <- <-
               | H : _ = _ |- _ => discriminate H
               end;
        exists []; eexists; reflexivity.
    + apply infix_app_l, IH, Hin.
  - intros nodeID nv v joins id. induction joins as [|j js IH]; [intros []|].
    rewrite drain_joins_cons. intros Hin. apply in_app_iff in Hin as [Hin|Hin].
    + destruct (String.eqb (jr_ID j) nodeID); [destruct Hin|].
      destruct (nv j), (v j); cbn in Hin;
        repeat match goal with
               | H : _ \/ _ |- _ => destruct H as [H|H]
               | H : False |- _ => destruct H
               | H : DeleteJoin _ = DeleteJoin _ |- _ => injection H as <-
               | H : _ = _ |- _ => discriminate H
               end;
        exists (jr_Addr j), []; eexists; reflexivity.
    + destruct (IH Hin) as (addr & H). exists addr. apply infix_app_l, H.
Qed.

(* ------------------------------------------------------------------ *)
(** *** Discovery through the registry *)

Lemma decode_http_addr_encoded (fmt_time : Z -> string) (l : LeaderInfo) :
  match encode_LeaderInfo fmt_time l with
  | JObj fs => decode_string_field "http_addr" fs ""
  | _ => ("", true)
  end = (HTTPAddr l, false).
Proof. reflexivity. Qed.

(** A node's [getLeaderHTTPAddr] against the registry's [GET /leader]:
    with a registry address configured, it yields the [http_addr] of the
    stored leader record while that record is at most [leaderTTL] old,
    and "" when the slot is empty or stale, or when the registry cannot
    be reached. Composed with [registerLeader] and [putLeader]: a follower
    asking within 10 s of a registration of a leader at raft address
    [h:rp] with HTTP address [:hp] forwards to [h:hp]. *)
Theorem X_discovery :
  (forall mandiAddr fmt_time s now, mandiAddr <> "" ->
    getLeaderHTTPAddr mandiAddr (Some (leader_reply_wire fmt_time (getLeader s now))) =
      match leader s with
      | Some l => if now - UpdatedAt l <=? leaderTTL then HTTPAddr l else ""
      | None => ""
      end) /\
  (forall mandiAddr, getLeaderHTTPAddr mandiAddr None = "") /\
  (forall mandiAddr fmt_time s nodeID h rp hp gp term t now,
    mandiAddr <> "" -> colon_free h = true -> now - t <= leaderTTL ->
    getLeaderHTTPAddr mandiAddr
      (Some (leader_reply_wire fmt_time
         (getLeader (snd (putLeader s
            (inl (registerLeader_info nodeID (h ++ String ":" rp) (String ":" hp) (String ":" gp)
                    term t)) t)) now))) = h ++ String ":" hp).
Proof.
  assert (Hfresh : forall mandiAddr fmt_time s now, mandiAddr <> "" ->
    getLeaderHTTPAddr mandiAddr (Some (leader_reply_wire fmt_time (getLeader s now))) =
      match leader s with
      | Some l => if now - UpdatedAt l <=? leaderTTL then HTTPAddr l else ""
      | None => ""
      end).
  { intros mandiAddr fmt_time s now Hm.
    unfold getLeaderHTTPAddr. destruct (String.eqb_spec mandiAddr "") as [E|_]; [contradiction|].
    unfold getLeader. destruct (leader s) as [l|]; [|reflexivity].
    rewrite since_gt_ttl.
    destruct (Z.gtb_spec (now - UpdatedAt l) leaderTTL);
      destruct (Z.leb_spec (now - UpdatedAt l) leaderTTL); try lia; [reflexivity|].
    cbn [leader_reply_wire]. cbn [Z.eqb StatusOK negb].
    pose proof (decode_http_addr_encoded fmt_time l) as D. cbn [encode_LeaderInfo] in D |- *.
    rewrite D. reflexivity. }
  split; [exact Hfresh|]. split.
  - intros mandiAddr. unfold getLeaderHTTPAddr. destruct (String.eqb mandiAddr ""); reflexivity.
  - intros mandiAddr fmt_time s nodeID h rp hp gp term t now Hm Hh Ht.
    rewrite Hfresh by exact Hm. cbn [putLeader snd leader UpdatedAt HTTPAddr].
    destruct (Z.leb_spec (now - t) leaderTTL); [|lia].
    unfold registerLeader_info, hostname_of; cbn [HTTPAddr].
    rewrite host_before_colon_app by exact Hh. reflexivity.
Qed.

Lemma X_discovery_witness :
  getLeaderHTTPAddr "http://mandi:7000"
    (Some (leader_reply_wire (fun _ => "")
       (getLeader (snd (putLeader NewStore
          (inl (registerLeader_info "node1" "pyazdb-node1:12000" ":8080" ":9090" 2 100)) 100))
          (100 + 5000000000)))) = "pyazdb-node1:8080".
Proof.
  destruct X_discovery as (_ & _ & H).
  apply (H "http://mandi:7000" (fun _ => "") NewStore "node1" "pyazdb-node1" "12000" "8080" "9090"
           2 100 (100 + 5000000000)).
  - discriminate.
  - reflexivity.
  - unfold leaderTTL. lia.
Defined.

Lemma X_mandi_join_list_witness :
  In {| jr_ID := "n2"; jr_Addr := "h2:7000"; StartedAt := 5 |}
     (match listJoinRequests (snd (postJoinRequest NewStore
              (inl {| jr_ID := "n2"; jr_Addr := "h2:7000"; StartedAt := 0 |}) 5)) with
      | Some l => l | None => [] end).
Proof.
  destruct X_mandi_join_list as [_ H].
  apply (H (snd (postJoinRequest NewStore
              (inl {| jr_ID := "n2"; jr_Addr := "h2:7000"; StartedAt := 0 |}) 5))).
  - reflexivity.
  - exists "n2". reflexivity.
Defined.

Lemma X_join_drain_witness :
  exists l1 l2,
    drain_joins "n1" (fun _ => true) (fun _ => false)
      [{| jr_ID := "n1"; jr_Addr := "h1:7000"; StartedAt := 0 |};
       {| jr_ID := "n2"; jr_Addr := "h2:7000"; StartedAt := 0 |}] =
    (l1 ++ [AddNonvoter "n2" "h2:7000"; AddVoter "n2" "h2:7000"] ++ l2)%list.
Proof.
  destruct X_join_drain as (_ & _ & H & _).
  apply (H "n1" (fun _ => true) (fun _ => false)
           [{| jr_ID := "n1"; jr_Addr := "h1:7000"; StartedAt := 0 |};
            {| jr_ID := "n2"; jr_Addr := "h2:7000"; StartedAt := 0 |}] "n2" "h2:7000").
  vm_compute. auto.
Defined.


(* ------------------------------------------------------------------ *)
(** *** The averages on every reachable counter state *)

Definition lat_range (m : Metrics) : Prop :=
  0 <= GetLatencyNs m < two64 /\ 0 <= SetLatencyNs m < two64 /\ 0 <= DeleteLatencyNs m < two64.

Lemma lat_range_step {S} `{KVStore S} (s : InstrumentedStore S) (o : iop) :
  lat_range (metrics s) -> lat_range (metrics (run_iop s o)).
Proof.
  intros (Hg & Hs & Hd). rewrite metrics_run_iop. unfold lat_range.
  destruct o; cbn; repeat split; first [apply add_u64_range | lia].
Qed.

Lemma metrics_ok_events {S} `{KVStore S} (evs : list mevent) (s : InstrumentedStore S) :
  metrics_ok (metrics s) -> lat_range (metrics s) -> Forall mevent_ok evs ->
  count_sum (metrics s) + Z.of_nat (List.length evs) < two64 ->
  metrics_ok (metrics (run_mevents s evs)) /\ lat_range (metrics (run_mevents s evs)).
Proof.
  revert s. induction evs as [|e evs IH]; intros s Hok Hr Hall Hsum; [split; assumption|].
  inversion Hall as [|? ? He Hevs]; subst. cbn [List.length] in Hsum.
  unfold run_mevents. cbn [fold_left]. fold (run_mevents (run_mevent s e) evs).
  destruct e as [o|]; cbn [run_mevent].
  - destruct (metrics_ok_step s o Hok He ltac:(lia)) as [Hok' Hs'].
    apply IH; [exact Hok' | apply lat_range_step, Hr | exact Hevs | lia].
  - assert (Hc : 0 <= count_sum (metrics s)).
    { destruct Hok as ((? & _) & (? & _) & (? & _)). unfold count_sum. lia. }
    apply IH; [| | exact Hevs |].
    + unfold metrics_ok, cls_ok; cbn. lia.
    + unfold lat_range; cbn. unfold two64. lia.
    + unfold count_sum in *; cbn. lia.
Qed.

Lemma avgLatency_zero (lat : Z) : avgLatency lat 0 = 0.
Proof. reflexivity. Qed.

Lemma avg_class (lat cnt : Z) :
  cls_ok lat cnt -> 0 <= lat < two64 ->
  avgLatency lat cnt = (if cnt =? 0 then 0 else lat / cnt).
Proof.
  intros Hok Hr. destruct (Z.eqb_spec cnt 0) as [->|_]; [reflexivity|].
  apply avgLatency_ok; [exact Hok | lia].
Qed.

(** C10: [GetMetrics] is total and never divides by zero: on every
    counter state a class with count 0 reports an average of 0. On every
    state the wrapper can reach (from [NewInstrumentedStore], through
    calls whose monotonic clock readings are in order and through
    [ResetMetrics], fewer than 2^64 events in all) each class reports
    its cumulative latency divided by its count, in integer division,
    and 0 when the count is 0. *)
Theorem C10_avg_latency {S} `{KVStore S} :
  (forall s : InstrumentedStore S,
    (GetCount (metrics s) = 0 -> GetAvgLatency (GetMetrics s) = 0) /\
    (SetCount (metrics s) = 0 -> SetAvgLatency (GetMetrics s) = 0) /\
    (DeleteCount (metrics s) = 0 -> DeleteAvgLatency (GetMetrics s) = 0)) /\
  (forall (st : S) (evs : list mevent),
    Forall mevent_ok evs -> Z.of_nat (List.length evs) < two64 ->
    let s := run_mevents (NewInstrumentedStore st) evs in
    let m := metrics s in
    GetAvgLatency (GetMetrics s) =
      (if GetCount m =? 0 then 0 else GetLatencyNs m / GetCount m) /\
    SetAvgLatency (GetMetrics s) =
      (if SetCount m =? 0 then 0 else SetLatencyNs m / SetCount m) /\
    DeleteAvgLatency (GetMetrics s) =
      (if DeleteCount m =? 0 then 0 else DeleteLatencyNs m / DeleteCount m)).
Proof.
  split.
  - intros s. destruct (GetMetrics_avg s) as (Hg & Hs & Hd).
    split; [|split]; intros Hc; [rewrite Hg | rewrite Hs | rewrite Hd]; rewrite Hc; reflexivity.
  - intros st evs Hall Hlen s m.
    destruct (metrics_ok_events evs (NewInstrumentedStore st)) as [Hok Hr];
      [unfold metrics_ok, cls_ok; cbn; lia | unfold lat_range; cbn; unfold two64; lia
      | exact Hall | unfold count_sum; cbn; lia |].
    destruct Hok as (Og & Os & Od). destruct Hr as (Rg & Rs & Rd).
    destruct (GetMetrics_avg s) as (Hg & Hs & Hd).
    rewrite Hg, Hs, Hd. fold m in Og, Os, Od, Rg, Rs, Rd |- *.
    split; [|split]; apply avg_class; assumption.
Qed.

Lemma C10_avg_latency_witness :
  GetAvgLatency (GetMetrics (run_mevents (NewInstrumentedStore NewMemStore)
    [ECall (IGet 0 300 "a"); EReset; ECall (IGet 0 10 "a"); ECall (ISet 5 9 "a" "1");
     ECall (IGet 20 40 "a")])) = 15.
Proof.
  destruct (@C10_avg_latency MemStore _) as [_ H].
  destruct (H NewMemStore
    [ECall (IGet 0 300 "a"); EReset; ECall (IGet 0 10 "a"); ECall (ISet 5 9 "a" "1");
     ECall (IGet 20 40 "a")]) as [Hg _].
  - repeat constructor; cbn; lia.
  - cbn. unfold two64. lia.
  - rewrite Hg. reflexivity.
Defined.
